(** * ttls: a client for Twinkly LED strings

    A shallow embedding of [ttls.py] (class [Twinkly] and [main]) and of
    [ttls/cli.py] ([main]), with the session lifecycle, the realtime
    datagram and the command dispatch stated and proved over it.

    Conventions of the embedding.
    - Python objects that travel through JSON are values of [value].
      JSON numbers are integers; floats are outside the model, so clock
      readings and token lifetimes are whole seconds in [Z].
    - A method of [Twinkly] is a computation in the monad [M]: it takes the
      world (the object [self], the virtual clock and the log of I/O done
      so far) and returns either a result or the exception raised,
      together with the world it leaves behind.  Attribute writes done
      before an exception stay done, as in Python.
    - [time.time()] reads the field [now] of the world.  The clock is
      virtual: it is set between calls and stands still during one call.
    - The device, the transport library, the random source, the file system
      and the library functions [base64.b64decode] and [json.loads] form
      the environment [env]; every theorem holds for every environment
      unless it names one.
    - The cycle [ensure_token -> verify_login -> _post -> ensure_token] is
      tied with a fuel counter standing for the interpreter's recursion
      limit; running out of fuel is [RecursionError].  Every method that
      may reach [ensure_token] takes the fuel as an argument. *)

From Stdlib Require Import ZArith QArith Qround List String Ascii Bool Lia.
From Stdlib.Strings Require Import Byte.
Import ListNotations.
Open Scope string_scope.
Open Scope list_scope.
Open Scope Z_scope.

(** ** Python values and exceptions *)

#[local] Set Warnings "-register-all".

Inductive value : Type :=
| PyNone
| PyBool (b : bool)
| PyInt (n : Z)
| PyStr (s : string)
| PyList (items : list value)
| PyDict (entries : list (string * value)).

Inductive exn : Type :=
| HTTPError (status : Z)
| ConnectionError
| JSONDecodeError
| KeyError (key : string)
| TypeError
| ValueError (msg : string)
| AttributeError (attr : string)
| ZeroDivisionError
| RecursionError
| OSError
| Base64Error
| UnboundLocalError (var : string)
| SystemExit (code : Z)
| PlainException (msg : string).

Inductive outcome (A : Type) : Type :=
| Ok (a : A)
| Raise (e : exn).
Arguments Ok {A} a.
Arguments Raise {A} e.

Definition is_ok {A} (o : outcome A) : bool :=
  match o with Ok _ => true | Raise _ => false end.

(** [d[key]] for a key that is a string. *)
Fixpoint assoc (key : string) (entries : list (string * value)) : option value :=
  match entries with
  | [] => None
  | (k, v) :: rest => if String.eqb k key then Some v else assoc key rest
  end.

Definition subscript (v : value) (key : string) : outcome value :=
  match v with
  | PyDict entries =>
      match assoc key entries with
      | Some x => Ok x
      | None => Raise (KeyError key)
      end
  | _ => Raise TypeError
  end.

(** The integer a value stands for in arithmetic and in [bytes([...])]:
    [bool] is a subclass of [int]. *)
Definition as_int (v : value) : option Z :=
  match v with
  | PyInt n => Some n
  | PyBool true => Some 1
  | PyBool false => Some 0
  | _ => None
  end.

(** [n == v] for an integer [n]. *)
Definition int_eq (n : Z) (v : value) : bool :=
  match as_int v with
  | Some m => n =? m
  | None => false
  end.

(** [bool(v)], used by [if args.movie_file:]. *)
Definition truthy (v : value) : bool :=
  match v with
  | PyNone => false
  | PyBool b => b
  | PyInt n => negb (n =? 0)
  | PyStr s => negb (String.eqb s "")
  | PyList l => match l with [] => false | _ => true end
  | PyDict d => match d with [] => false | _ => true end
  end.

(** ** Bytes *)

Definition byte_of_Z (z : Z) : option byte :=
  if (0 <=? z) && (z <? 256) then Byte.of_N (Z.to_N z) else None.

Definition Z_of_byte (b : byte) : Z := Z.of_N (Byte.to_N b).

(** [bytes(l)] for a list of integers. *)
Fixpoint bytes_of_ints (l : list Z) : outcome (list byte) :=
  match l with
  | [] => Ok []
  | z :: rest =>
      match byte_of_Z z with
      | None => Raise (ValueError "bytes must be in range(0, 256)")
      | Some b =>
          match bytes_of_ints rest with
          | Ok bs => Ok (b :: bs)
          | Raise e => Raise e
          end
      end
  end.

(** [bytes([v])] for one Python value. *)
Definition bytes_of_value (v : value) : outcome (list byte) :=
  match as_int v with
  | Some z => bytes_of_ints [z]
  | None => Raise TypeError
  end.

(** ** The object, the requests and the world *)

Definition TWINKLY_MODES : list string := ["rt"; "movie"; "off"; "demo"; "effect"].

Definition TWINKLY_FRAME : Type := list (Z * Z * Z).

(** The attributes of a [Twinkly] instance.  [x_auth_token] is the entry
    [session.headers['X-Auth-Token']]; [socket] and [logger] carry no
    state of their own. *)
Record Twinkly : Type := {
  host : string;
  rt_port : Z;
  expires : option Z;
  _token : value;
  _length : value;
  x_auth_token : option value
}.

Inductive verb : Type := GET | POST.

Inductive content : Type :=
| NoBody
| Json (v : value)
| Octets (data : list byte).

Record request : Type := {
  method : verb;
  url : string;
  auth_header : option value;
  body : content
}.

Record response : Type := {
  status_code : Z;
  json_body : option value
}.

Inductive reply : Type :=
| Fails (e : exn)
| Answers (r : response).

(** Who put a request on the wire: the helpers [_get] and [_post], or
    [login], which calls [session.post] itself. *)
Inductive origin : Type := Helper | Direct.

(** One entry of the I/O log.  An [Http] entry also records the clock and
    the stored expiry at the moment the request is sent. *)
Inductive event : Type :=
| Http (o : origin) (rq : request) (clock : Z) (stored_expiry : option Z)
| Udp (data : list byte) (dst_host : string) (dst_port : Z)
| Stdout (compact : bool) (res : value).

Record world : Type := {
  self : Twinkly;
  now : Z;
  log : list event
}.

(** Everything outside the program.  Each oracle sees the log so far. *)
Record env : Type := {
  challenge : list event -> string;
  respond : list event -> request -> reply;
  sendto : list event -> list byte -> option exn;
  b64decode : string -> option (list byte);
  json_loads : string -> option value;
  read_file : string -> outcome (list byte)
}.

(** ** The monad of methods *)

Definition M (A : Type) : Type := world -> outcome A * world.

Definition ret {A} (a : A) : M A := fun w => (Ok a, w).

Definition raise {A} (e : exn) : M A := fun w => (Raise e, w).

Definition bind {A B} (m : M A) (k : A -> M B) : M B :=
  fun w =>
    match m w with
    | (Ok a, w1) => k a w1
    | (Raise e, w1) => (Raise e, w1)
    end.

Definition lift {A} (o : outcome A) : M A := fun w => (o, w).

Declare Scope py_scope.
Delimit Scope py_scope with py.
Notation "x <- m ;; k" := (bind m (fun x => k))
  (at level 61, m at next level, right associativity) : py_scope.
Notation "m ;; k" := (bind m (fun _ => k))
  (at level 61, right associativity) : py_scope.
Open Scope py_scope.

Definition get_self : M Twinkly := fun w => (Ok (self w), w).

Definition set_self (t : Twinkly) : M unit :=
  fun w => (Ok tt, {| self := t; now := now w; log := log w |}).

Definition emit (ev : event) : M unit :=
  fun w => (Ok tt, {| self := self w; now := now w; log := log w ++ [ev] |}).

(** [time.time()] on the virtual clock: the reading is [now], which is
    set between calls ([at_time]) and stands still during one.  The
    session layer on a clock that moves while a call runs is [wall_time]
    and what follows it. *)
Definition time_time : M Z := fun w => (Ok (now w), w).

(** Attribute writes. *)
Definition set_token (v : value) : M unit :=
  t <- get_self ;;
  set_self {| host := host t; rt_port := rt_port t; expires := expires t;
              _token := v; _length := _length t;
              x_auth_token := x_auth_token t |}.

Definition set_header (v : value) : M unit :=
  t <- get_self ;;
  set_self {| host := host t; rt_port := rt_port t; expires := expires t;
              _token := _token t; _length := _length t;
              x_auth_token := Some v |}.

Definition set_expires (e : Z) : M unit :=
  t <- get_self ;;
  set_self {| host := host t; rt_port := rt_port t; expires := Some e;
              _token := _token t; _length := _length t;
              x_auth_token := x_auth_token t |}.

Definition set_length (v : value) : M unit :=
  t <- get_self ;;
  set_self {| host := host t; rt_port := rt_port t; expires := expires t;
              _token := _token t; _length := v;
              x_auth_token := x_auth_token t |}.

(** ** The session layer *)

Section Client.

Variable E : env.

(** [self.base] *)
Definition base (t : Twinkly) : string := ("http://" ++ host t ++ "/xled/v1")%string.

(** [self.session.post(url, ...)] and [self.session.get(url, ...)]: the
    request leaves with the session's current header. *)
Definition session_request (o : origin) (m : verb) (endpoint : string)
    (c : content) : M response :=
  fun w =>
    let rq := {| method := m;
                 url := (base (self w) ++ "/" ++ endpoint)%string;
                 auth_header := x_auth_token (self w);
                 body := c |} in
    let w1 := {| self := self w; now := now w;
                 log := log w ++ [Http o rq (now w) (expires (self w))] |} in
    match respond E (log w) rq with
    | Fails e => (Raise e, w1)
    | Answers r => (Ok r, w1)
    end.

(** [response.raise_for_status()] *)
Definition raise_for_status (r : response) : M unit :=
  if (400 <=? status_code r) && (status_code r <? 600)
  then raise (HTTPError (status_code r))
  else ret tt.

(** [response.json()] *)
Definition json (r : response) : M value :=
  match json_body r with
  | Some v => ret v
  | None => raise JSONDecodeError
  end.

(** [self.expires is None or self.expires <= time.time()] *)
Definition expired (t : Twinkly) (clock : Z) : bool :=
  match expires t with
  | None => true
  | Some e => e <=? clock
  end.

Definition login : M unit :=
  fun w =>
    (let payload := PyDict [("challenge", PyStr (challenge E (log w)))] in
     r <- session_request Direct POST "login" (Json payload) ;;
     raise_for_status r ;;
     r <- json r ;;
     tok <- lift (subscript r "authentication_token") ;;
     set_token tok ;;
     t <- get_self ;;
     set_header (_token t) ;;
     clock <- time_time ;;
     ttl <- lift (subscript r "authentication_token_expires_in") ;;
     match as_int ttl with
     | None => raise TypeError
     | Some n => set_expires (clock + n)
     end) w.

(** The helpers and [verify_login], open in the call to [ensure_token]
    they start with. *)
Section Helpers.

Variable ensure : M unit.

Definition _post_with (endpoint : string) (c : content) : M response :=
  ensure ;; session_request Helper POST endpoint c.

Definition _get_with (endpoint : string) : M response :=
  ensure ;; session_request Helper GET endpoint NoBody.

Definition verify_login_with : M unit :=
  r <- _post_with "verify" (Json (PyDict [])) ;;
  raise_for_status r.

End Helpers.

Fixpoint ensure_token (fuel : nat) : M unit :=
  match fuel with
  | O => raise RecursionError
  | S fuel' =>
      fun w =>
        if expired (self w) (now w)
        then (login ;; verify_login_with (ensure_token fuel')) w
        else (Ok tt, w)
  end.

Definition _post (fuel : nat) : string -> content -> M response :=
  _post_with (ensure_token fuel).

Definition _get (fuel : nat) : string -> M response :=
  _get_with (ensure_token fuel).

Definition verify_login (fuel : nat) : M unit :=
  verify_login_with (ensure_token fuel).

Definition logout (fuel : nat) : M unit :=
  r <- _post fuel "logout" (Json (PyDict [])) ;;
  raise_for_status r ;;
  set_token PyNone.

(** The property [token]. *)
Definition token (fuel : nat) : M value :=
  ensure_token fuel ;;
  t <- get_self ;;
  ret (_token t).

(** The attributes as [__init__] first sets them. *)
Definition unborn (h : string) : Twinkly :=
  {| host := h; rt_port := 7777; expires := None;
     _token := PyNone; _length := PyNone; x_auth_token := None |}.

(** [Twinkly(host, login)] *)
Definition __init__ (h : string) (do_login : bool) (fuel : nat) : M unit :=
  set_self (unborn h) ;;
  if do_login then ensure_token fuel else ret tt.

(** ** The device operations *)

Definition get_name (fuel : nat) : M value :=
  r <- _get fuel "device_name" ;; raise_for_status r ;; json r.

Definition set_name (fuel : nat) (data : value) : M value :=
  r <- _post fuel "device_name" (Json data) ;; raise_for_status r ;; json r.

Definition reset (fuel : nat) : M value :=
  r <- _get fuel "reset" ;; raise_for_status r ;; json r.

Definition get_network_status (fuel : nat) : M value :=
  r <- _get fuel "network/status" ;; raise_for_status r ;; json r.

Definition get_firmware_version (fuel : nat) : M value :=
  r <- _get fuel "fw/version" ;; raise_for_status r ;; json r.

Definition get_details (fuel : nat) : M value :=
  r <- _get fuel "gestalt" ;; raise_for_status r ;; json r.

Definition get_mode (fuel : nat) : M value :=
  r <- _get fuel "led/mode" ;; raise_for_status r ;; json r.

Definition set_mode (fuel : nat) (data : value) : M value :=
  r <- _post fuel "led/mode" (Json data) ;; raise_for_status r ;; json r.

Definition get_mqtt (fuel : nat) : M value :=
  r <- _get fuel "mqtt/config" ;; raise_for_status r ;; json r.

Definition set_mqtt (fuel : nat) (data : value) : M value :=
  r <- _post fuel "mqtt/config" (Json data) ;; raise_for_status r ;; json r.

Definition get_movie_config (fuel : nat) : M value :=
  r <- _get fuel "led/movie/config" ;; raise_for_status r ;; json r.

Definition set_movie_config (fuel : nat) (data : value) : M value :=
  r <- _post fuel "led/movie/config" (Json data) ;; raise_for_status r ;; json r.

(** The per-request header [Content-Type: application/octet-stream] is
    what [Octets] stands for. *)
Definition upload_movie (fuel : nat) (movie : list byte) : M value :=
  r <- _post fuel "led/movie/full" (Octets movie) ;; raise_for_status r ;; json r.

(** The property [length]: fetched once, then cached, unless the device
    reports [null].  It is called [length_] here so that the length of
    lists keeps its name. *)
Definition length_ (fuel : nat) : M value :=
  t <- get_self ;;
  match _length t with
  | PyNone =>
      d <- get_details fuel ;;
      n <- lift (subscript d "number_of_led") ;;
      set_length n ;;
      t <- get_self ;;
      ret (_length t)
  | _ => ret (_length t)
  end.

(** The properties [name], [mode] and [version], getters and setters. *)
Definition name_getter (fuel : nat) : M value :=
  d <- get_name fuel ;; lift (subscript d "name").

Definition name_setter (fuel : nat) (n : string) : M unit :=
  set_name fuel (PyDict [("name", PyStr n)]) ;; ret tt.

Definition mode_getter (fuel : nat) : M value :=
  d <- get_mode fuel ;; lift (subscript d "mode").

Definition mode_setter (fuel : nat) (m : string) : M unit :=
  set_mode fuel (PyDict [("mode", PyStr m)]) ;; ret tt.

Definition version (fuel : nat) : M value :=
  d <- get_firmware_version fuel ;; lift (subscript d "version").

Definition realtime (fuel : nat) : M unit := mode_setter fuel "rt".
Definition movie (fuel : nat) : M unit := mode_setter fuel "movie".
Definition off (fuel : nat) : M unit := mode_setter fuel "off".
Definition demo (fuel : nat) : M unit := mode_setter fuel "demo".

(** ** The realtime transport *)

(** [base64.b64decode(v)] on a Python value. *)
Definition b64decode_value (v : value) : outcome (list byte) :=
  match v with
  | PyStr s =>
      match b64decode E s with
      | Some bs => Ok bs
      | None => Raise Base64Error
      end
  | _ => Raise TypeError
  end.

(** [self.socket.sendto(data, (host, port))] *)
Definition socket_sendto (data : list byte) (h : string) (p : Z) : M unit :=
  fun w =>
    let w1 := {| self := self w; now := now w;
                 log := log w ++ [Udp data h p] |} in
    match sendto E (log w) data with
    | Some e => (Raise e, w1)
    | None => (Ok tt, w1)
    end.

(** The loop [for x in frame: payload.extend(list(x))]. *)
Definition frame_payload (frame : TWINKLY_FRAME) : list Z :=
  flat_map (fun x => let '(r, g, b) := x in [r; g; b]) frame.

Definition send_frame (fuel : nat) (frame : TWINKLY_FRAME) : M unit :=
  n <- length_ fuel ;;
  if negb (int_eq (Z.of_nat (List.length frame)) n)
  then raise (ValueError "Invalid frame length")
  else
    tok <- token fuel ;;
    decoded <- lift (b64decode_value tok) ;;
    n <- length_ fuel ;;
    count <- lift (bytes_of_value n) ;;
    let header := [x01] ++ decoded ++ count in
    let payload := frame_payload frame in
    colours <- lift (bytes_of_ints payload) ;;
    t <- get_self ;;
    socket_sendto (header ++ colours) (host t) (rt_port t).

(** ** The command line *)

(** What the user typed after the global flags. *)
Inductive subcommand : Type :=
| NoCommand
| Network
| Firmware
| Details
| Token
| Name (name : option string)
| Mode (mode : option string)
| Mqtt (mqtt_json : option string)
| Movie (movie_delay : option Z) (movie_file : option string)
| Other (word : string).

Record argv : Type := {
  arg_host : string;
  arg_debug : bool;
  arg_json : bool;
  arg_command : subcommand
}.

Definition opt_str (o : option string) : value :=
  match o with
  | Some s => PyStr s
  | None => PyNone
  end.

(** [parser.parse_args()]: the namespace holds the global arguments and
    those of the chosen subparser only.  A word that is no subparser, a
    [--mode] outside [TWINKLY_MODES] and a missing required [--file] end
    the process with status 2.  [file_required] is the [required=] of
    [--file]: [True] in [ttls.py], [False] in [ttls/cli.py].  The flags
    [-h] and [--help], at which argparse prints the usage and ends the
    process with status 0, are no command line of [argv]: [main] is
    modelled from the point where [parse_args] has been handed one of
    the commands. *)
Definition parse_args (file_required : bool) (a : argv)
    : option (list (string * value)) :=
  let globals := [("host", PyStr (arg_host a));
                  ("debug", PyBool (arg_debug a));
                  ("json", PyBool (arg_json a))] in
  match arg_command a with
  | NoCommand => Some (globals ++ [("command", PyNone)])
  | Network => Some (globals ++ [("command", PyStr "network")])
  | Firmware => Some (globals ++ [("command", PyStr "firmware")])
  | Details => Some (globals ++ [("command", PyStr "details")])
  | Token => Some (globals ++ [("command", PyStr "token")])
  | Name n => Some (globals ++ [("command", PyStr "name"); ("name", opt_str n)])
  | Mode None => Some (globals ++ [("command", PyStr "mode"); ("mode", PyNone)])
  | Mode (Some m) =>
      if existsb (String.eqb m) TWINKLY_MODES
      then Some (globals ++ [("command", PyStr "mode"); ("mode", PyStr m)])
      else None
  | Mqtt j =>
      Some (globals ++ [("command", PyStr "mqtt"); ("mqtt_json", opt_str j)])
  | Movie d f =>
      let delay := match d with Some ms => ms | None => 100 end in
      match f with
      | None =>
          if file_required then None
          else Some (globals ++ [("command", PyStr "movie");
                                 ("movie_delay", PyInt delay);
                                 ("movie_file", PyNone)])
      | Some path =>
          Some (globals ++ [("command", PyStr "movie");
                            ("movie_delay", PyInt delay);
                            ("movie_file", PyStr path)])
      end
  | Other _ => None
  end.

(** [args.attr] *)
Definition getattr (args : list (string * value)) (attr : string) : M value :=
  match assoc attr args with
  | Some v => ret v
  | None => raise (AttributeError attr)
  end.

(** [v == s] for a string literal [s]. *)
Definition str_eq (v : value) (s : string) : bool :=
  match v with
  | PyStr x => String.eqb x s
  | _ => false
  end.

Definition is_none (v : value) : bool :=
  match v with
  | PyNone => true
  | _ => false
  end.

(** [int(x)] for a rational [x]: truncation toward zero. *)
Definition Qtrunc (x : Q) : Z :=
  if Qle_bool 0 x then Qfloor x else Qceiling x.

(** [int(len(movie) / 3 / t.length)], the quotients taken exactly. *)
Definition frames_number (len : Z) (leds : value) : outcome Z :=
  match as_int leds with
  | None => Raise TypeError
  | Some n =>
      if n =? 0 then Raise ZeroDivisionError
      else Ok (Qtrunc (inject_Z len / inject_Z 3 / inject_Z n))
  end.

(** The branch [elif args.command == 'movie':] with a file given. *)
Definition movie_branch (fuel : nat) (args : list (string * value))
    (path : value) : M value :=
  movie <- lift (match path with
                 | PyStr p => read_file E p
                 | _ => Raise TypeError
                 end) ;;
  delay <- getattr args "movie_delay" ;;
  leds <- length_ fuel ;;
  leds' <- length_ fuel ;;
  frames <- lift (frames_number (Z.of_nat (List.length movie)) leds') ;;
  let params := PyDict [("frame_delay", delay);
                        ("leds_number", leds);
                        ("frames_number", PyInt frames)] in
  mode_setter fuel "movie" ;;
  set_movie_config fuel params ;;
  upload_movie fuel movie.

(** The chain [if args.command == ...] of [main].  The result is the
    local variable [res], [None] while it is unbound. *)
Definition dispatch (fuel : nat) (args : list (string * value))
    : M (option value) :=
  command <- getattr args "command" ;;
  if str_eq command "name" then
    n <- getattr args "name" ;;
    res <- (if is_none n then get_name fuel
            else set_name fuel (PyDict [("name", n)])) ;;
    ret (Some res)
  else if str_eq command "network" then
    res <- get_network_status fuel ;; ret (Some res)
  else if str_eq command "firmware" then
    res <- get_firmware_version fuel ;; ret (Some res)
  else if str_eq command "details" then
    res <- get_details fuel ;; ret (Some res)
  else if str_eq command "mode" then
    m <- getattr args "mode" ;;
    res <- (if is_none m then get_mode fuel
            else set_mode fuel (PyDict [("mode", m)])) ;;
    ret (Some res)
  else if str_eq command "mqtt" then
    j <- getattr args "mqtt_json" ;;
    if is_none j then
      res <- get_mqtt fuel ;; ret (Some res)
    else
      data <- (match j with
               | PyStr text =>
                   match json_loads E text with
                   | Some v => ret v
                   | None => raise JSONDecodeError
                   end
               | _ => raise TypeError
               end) ;;
      m <- getattr args "mode" ;;
      if is_none m then raise (UnboundLocalError "res")
      else set_mqtt fuel data ;; ret None
  else if str_eq command "movie" then
    f <- getattr args "movie_file" ;;
    if truthy f then
      res <- movie_branch fuel args f ;; ret (Some res)
    else
      res <- get_movie_config fuel ;; ret (Some res)
  else raise (PlainException "Unknown command").

(** [main], the same text in [ttls.py] and in [ttls/cli.py] but for the
    parser's [required=] of [--file].  [ttls/cli.py] takes [Twinkly] from
    the package's client module; here both run against the class of
    [ttls.py]. *)
Definition main (file_required : bool) (a : argv) (fuel : nat) : M unit :=
  match parse_args file_required a with
  | None => raise (SystemExit 2)
  | Some args =>
      _ <- getattr args "debug" ;;
      h <- getattr args "host" ;;
      match h with
      | PyStr h' => __init__ h' true fuel
      | _ => raise TypeError
      end ;;
      res <- dispatch fuel args ;;
      compact <- getattr args "json" ;;
      match res with
      | None => raise (UnboundLocalError "res")
      | Some v => emit (Stdout (truthy compact) v)
      end
  end.

End Client.

(** ** The session layer on a clock that moves

    The same methods once more, from the same lines of [ttls.py], with
    time passing during a call: before each look at the clock, before a
    request leaves and while its reply is awaited.  How much passes is up
    to [lag], which sees the log and the clock so far.  [ensure_token] and
    the helpers hand back, next to what the source returns, the reading of
    the clock at the expiry test that let the call through; that reading
    is there for the statements only. *)

Section Wall.

Variable E : env.
Variable lag : list event -> Z -> Z.

(** Time passes. *)
Definition pause : M unit :=
  fun w => (Ok tt, {| self := self w;
                      now := now w + lag (log w) (now w);
                      log := log w |}).

(** [time.time()] *)
Definition wall_time : M Z := pause ;; time_time.

(** [self.session.post(...)] and [self.session.get(...)]: the event is
    stamped with the clock at which the request leaves. *)
Definition wall_request (o : origin) (m : verb) (endpoint : string)
    (c : content) : M response :=
  fun w =>
    let sent := session_request E o m endpoint c (snd (pause w)) in
    (fst sent, snd (pause (snd sent))).

Definition wall_login : M unit :=
  fun w =>
    (let payload := PyDict [("challenge", PyStr (challenge E (log w)))] in
     r <- wall_request Direct POST "login" (Json payload) ;;
     raise_for_status r ;;
     r <- json r ;;
     tok <- lift (subscript r "authentication_token") ;;
     set_token tok ;;
     t <- get_self ;;
     set_header (_token t) ;;
     clock <- wall_time ;;
     ttl <- lift (subscript r "authentication_token_expires_in") ;;
     match as_int ttl with
     | None => raise TypeError
     | Some n => set_expires (clock + n)
     end) w.

Section WallHelpers.

Variable ensure : M Z.

Definition wall_post_with (endpoint : string) (c : content) : M (Z * response) :=
  tested <- ensure ;;
  r <- wall_request Helper POST endpoint c ;;
  ret (tested, r).

Definition wall_get_with (endpoint : string) : M (Z * response) :=
  tested <- ensure ;;
  r <- wall_request Helper GET endpoint NoBody ;;
  ret (tested, r).

Definition wall_verify_login_with : M Z :=
  p <- wall_post_with "verify" (Json (PyDict [])) ;;
  raise_for_status (snd p) ;;
  ret (fst p).

End WallHelpers.

(** [self.expires is None or self.expires <= time.time()]: the clock is
    read only when an expiry is stored. *)
Fixpoint wall_ensure_token (fuel : nat) : M Z :=
  match fuel with
  | O => raise RecursionError
  | S fuel' =>
      fun w =>
        match expires (self w) with
        | None => (wall_login ;; wall_verify_login_with (wall_ensure_token fuel')) w
        | Some e =>
            (clock <- wall_time ;;
             if e <=? clock
             then wall_login ;; wall_verify_login_with (wall_ensure_token fuel')
             else ret clock) w
        end
  end.

Definition wall_post (fuel : nat) (endpoint : string) (c : content) : M response :=
  p <- wall_post_with (wall_ensure_token fuel) endpoint c ;;
  ret (snd p).

Definition wall_get (fuel : nat) (endpoint : string) : M response :=
  p <- wall_get_with (wall_ensure_token fuel) endpoint ;;
  ret (snd p).

(** The property [token]. *)
Definition wall_token (fuel : nat) : M value :=
  wall_ensure_token fuel ;;
  t <- get_self ;;
  ret (_token t).

End Wall.

(** The world as [pause] leaves it. *)
Definition paused (lag : list event -> Z -> Z) (w : world) : world :=
  {| self := self w; now := now w + lag (log w) (now w); log := log w |}.

(** A clock on which one second passes at every pause. *)
Definition one_second : list event -> Z -> Z := fun _ _ => 1.

(** A clock that stands still during a call. *)
Definition no_time : list event -> Z -> Z := fun _ _ => 0.

(** A request sent through a helper has an expiry stored as it leaves. *)
Definition has_expiry (ev : event) : bool :=
  match ev with
  | Http Helper _ _ None => false
  | _ => true
  end.

(** ** Reasoning about logs *)

Definition is_http (ev : event) : bool :=
  match ev with
  | Http _ _ _ _ => true
  | _ => false
  end.

(** What a call on the moving clock adds to the log: HTTP only, and every
    request sent through a helper with an expiry stored. *)
Definition wall_event (ev : event) : Prop :=
  is_http ev = true /\ has_expiry ev = true.

(** [w'] is [w] after some more I/O, all of it satisfying [P], with the
    clock no earlier. *)
Definition later_by (P : event -> Prop) (w w' : world) : Prop :=
  now w <= now w' /\ exists evs, log w' = log w ++ evs /\ Forall P evs.

(** What a returned [ensure_token] has seen: an expiry is stored and lies
    after the reading [tested] of its last test, which is no later than
    the clock now. *)
Definition passed (tested : Z) (w : world) : Prop :=
  exists e, expires (self w) = Some e /\ tested < e /\ tested <= now w.

(** On a clock that stands still the reading handed back by the moving
    [ensure_token] is the clock itself. *)
Definition at_reading (w : world) (o : outcome unit) : outcome Z :=
  match o with
  | Ok _ => Ok (now w)
  | Raise e => Raise e
  end.

(** A request sent through a helper is fresh when, as it leaves, an expiry
    is stored and lies after the clock. *)
Definition sent_fresh (ev : event) : bool :=
  match ev with
  | Http Helper _ clock (Some e) => clock <? e
  | Http Helper _ _ None => false
  | _ => true
  end.

Definition session_event (ev : event) : Prop :=
  is_http ev = true /\ sent_fresh ev = true.

(** [w'] is [w] after some more I/O, all of it satisfying [P], at the same
    instant of the virtual clock. *)
Definition grows_by (P : event -> Prop) (w w' : world) : Prop :=
  now w' = now w /\ exists evs, log w' = log w ++ evs /\ Forall P evs.

(** Attributes that the session layer never writes. *)
Definition same_device (t t' : Twinkly) : Prop :=
  host t' = host t /\ rt_port t' = rt_port t /\ _length t' = _length t.

(** Every step of [m] keeps the clock and adds only events satisfying [P]. *)
Definition tidy (P : event -> Prop) {A} (m : M A) : Prop :=
  forall w, grows_by P w (snd (m w)).

(** [n] calls of [m] in a row, stopping at the first exception. *)
Fixpoint repeat_call (n : nat) (m : M unit) : M unit :=
  match n with
  | O => ret tt
  | S n' => m ;; repeat_call n' m
  end.

(** The virtual clock is moved between calls. *)
Definition at_time (t : Z) (w : world) : world :=
  {| self := self w; now := t; log := log w |}.

(** The datagrams a log holds, oldest first. *)
Fixpoint datagrams (l : list event) : list (list byte * string * Z) :=
  match l with
  | [] => []
  | Udp data h p :: rest => (data, h, p) :: datagrams rest
  | _ :: rest => datagrams rest
  end.

(** All three channels of a triple fit in eight bits. *)
Definition channels_8bit (x : Z * Z * Z) : Prop :=
  let '(r, g, b) := x in
  (0 <= r < 256) /\ (0 <= g < 256) /\ (0 <= b < 256).

(** Reading a payload back, three bytes to a triple. *)
Fixpoint decode_payload (bs : list byte) : option TWINKLY_FRAME :=
  match bs with
  | [] => Some []
  | r :: g :: b :: rest =>
      match decode_payload rest with
      | Some frame => Some ((Z_of_byte r, Z_of_byte g, Z_of_byte b) :: frame)
      | None => None
      end
  | _ => None
  end.

(** The object with the LED count [v] cached. *)
Definition with_length (v : value) (w : world) : world :=
  {| self := {| host := host (self w); rt_port := rt_port (self w);
                expires := expires (self w); _token := _token (self w);
                _length := v; x_auth_token := x_auth_token (self w) |};
     now := now w; log := log w |}.

(** ** The renewal protocol, event by event *)

(** The request [login] sends from world [w]. *)
Definition login_request (E : env) (w : world) : request :=
  {| method := POST;
     url := (base (self w) ++ "/" ++ "login")%string;
     auth_header := x_auth_token (self w);
     body := Json (PyDict [("challenge", PyStr (challenge E (log w)))]) |}.

Definition login_event (E : env) (w : world) : event :=
  Http Direct (login_request E w) (now w) (expires (self w)).

(** The request [verify_login] sends for the object [t]. *)
Definition verify_request (t : Twinkly) : request :=
  {| method := POST;
     url := (base t ++ "/" ++ "verify")%string;
     auth_header := x_auth_token t;
     body := Json (PyDict []) |}.

Definition verify_event (t : Twinkly) (clock : Z) : event :=
  Http Helper (verify_request t) clock (expires t).

(** The object after a login that returned [tok], valid until [e]. *)
Definition installed (tok : value) (e : Z) (t : Twinkly) : Twinkly :=
  {| host := host t; rt_port := rt_port t; expires := Some e;
     _token := tok; _length := _length t; x_auth_token := Some tok |}.

(** The reply is a success status with a JSON object carrying the token
    [tok] and the lifetime [ttl]. *)
Definition grants (rp : reply) (tok : value) (ttl : Z) : Prop :=
  exists st r v,
    rp = Answers {| status_code := st; json_body := Some r |} /\
    (400 <=? st) && (st <? 600) = false /\
    subscript r "authentication_token" = Ok tok /\
    subscript r "authentication_token_expires_in" = Ok v /\
    as_int v = Some ttl.

(** The exception a reply turns into under [raise_for_status], if any. *)
Definition reply_error (rp : reply) : option exn :=
  match rp with
  | Fails e => Some e
  | Answers r =>
      if (400 <=? status_code r) && (status_code r <? 600)
      then Some (HTTPError (status_code r))
      else None
  end.

(** The world after a granted login and the verify request that follows. *)
Definition renewed (E : env) (tok : value) (ttl : Z) (w : world) : world :=
  let t := installed tok (now w + ttl) (self w) in
  {| self := t; now := now w;
     log := log w ++ [login_event E w; verify_event t (now w)] |}.

(** What the device says to that verify request. *)
Definition verify_reply (E : env) (tok : value) (ttl : Z) (w : world) : reply :=
  respond E (log w ++ [login_event E w])
    (verify_request (installed tok (now w + ttl) (self w))).

(** ** One request under a session in force *)

(** The request an operation of the object [t] puts on the wire. *)
Definition request_for (t : Twinkly) (m : verb) (endpoint : string)
    (c : content) : request :=
  {| method := m;
     url := (base t ++ "/" ++ endpoint)%string;
     auth_header := x_auth_token t;
     body := c |}.

(** The world once that request has left. *)
Definition after_request (o : origin) (m : verb) (endpoint : string)
    (c : content) (w : world) : world :=
  {| self := self w; now := now w;
     log := log w ++ [Http o (request_for (self w) m endpoint c)
                        (now w) (expires (self w))] |}.

(** What [raise_for_status] followed by [json] makes of a reply. *)
Definition outcome_of_reply (rp : reply) : outcome value :=
  match rp with
  | Fails e => Raise e
  | Answers r =>
      if (400 <=? status_code r) && (status_code r <? 600)
      then Raise (HTTPError (status_code r))
      else match json_body r with
           | Some v => Ok v
           | None => Raise JSONDecodeError
           end
  end.

(** The exception with which [login] gives up before it has written any
    attribute, if the reply is of that kind. *)
Definition login_refusal (rp : reply) : option exn :=
  match rp with
  | Fails e => Some e
  | Answers r =>
      if (400 <=? status_code r) && (status_code r <? 600)
      then Some (HTTPError (status_code r))
      else match json_body r with
           | None => Some JSONDecodeError
           | Some v =>
               match subscript v "authentication_token" with
               | Raise e => Some e
               | Ok _ => None
               end
           end
  end.

(** The exception of the line that computes [self.expires], for a reply
    [r] whose lifetime is missing or no number. *)
Definition lifetime_error (r : value) : option exn :=
  match subscript r "authentication_token_expires_in" with
  | Raise e => Some e
  | Ok v => match as_int v with
            | None => Some TypeError
            | Some _ => None
            end
  end.

(** The object with token and header replaced and the expiry untouched. *)
Definition half_installed (tok : value) (t : Twinkly) : Twinkly :=
  {| host := host t; rt_port := rt_port t; expires := expires t;
     _token := tok; _length := _length t; x_auth_token := Some tok |}.

(** The object with the token cleared, as [logout] leaves it. *)
Definition token_cleared (t : Twinkly) : Twinkly :=
  {| host := host t; rt_port := rt_port t; expires := expires t;
     _token := PyNone; _length := _length t; x_auth_token := x_auth_token t |}.

Definition with_self (t : Twinkly) (w : world) : world :=
  {| self := t; now := now w; log := log w |}.

(** Host and port of [t'] are those of [t]. *)
Definition same_address (t t' : Twinkly) : Prop :=
  host t' = host t /\ rt_port t' = rt_port t.

(** Whatever [m] does, the object it leaves is related by [R] to the one
    it found. *)
Definition keeps (R : Twinkly -> Twinkly -> Prop) {A} (m : M A) : Prop :=
  forall w, R (self w) (self (snd (m w))).

(** The command line [--host h <c>] with the two global flags. *)
Definition command_line (h : string) (dbg js : bool) (c : subcommand) : argv :=
  {| arg_host := h; arg_debug := dbg; arg_json := js; arg_command := c |}.

(** ** A device for the examples *)

Definition b64_digit (c : ascii) : option N :=
  let n := N_of_ascii c in
  if ((65 <=? n) && (n <=? 90))%N then Some (n - 65)%N
  else if ((97 <=? n) && (n <=? 122))%N then Some (n - 71)%N
  else if ((48 <=? n) && (n <=? 57))%N then Some (n + 4)%N
  else if (n =? 43)%N then Some 62%N
  else if (n =? 47)%N then Some 63%N
  else None.

Definition low_byte (n : N) : byte :=
  match Byte.of_N (n mod 256) with
  | Some b => b
  | None => x00
  end.

(** Canonical base64 text with padding, four characters at a time. *)
Fixpoint b64decode_std (s : string) : option (list byte) :=
  match s with
  | EmptyString => Some []
  | String a (String b (String c (String d rest))) =>
      match b64_digit a, b64_digit b with
      | Some x, Some y =>
          if Ascii.eqb c "=" && Ascii.eqb d "=" && String.eqb rest ""
          then Some [low_byte (x * 4 + y / 16)]
          else
            match b64_digit c with
            | None => None
            | Some z =>
                if Ascii.eqb d "=" && String.eqb rest ""
                then Some [low_byte (x * 4 + y / 16); low_byte (y * 16 + z / 4)]
                else
                  match b64_digit d, b64decode_std rest with
                  | Some u, Some more =>
                      Some (low_byte (x * 4 + y / 16)
                            :: low_byte (y * 16 + z / 4)
                            :: low_byte (z * 64 + u) :: more)
                  | _, _ => None
                  end
            end
      | _, _ => None
      end
  | _ => None
  end.

Definition ok_body : value := PyDict [("code", PyInt 1000)].

(** A device at host [lights]: it hands out the token [QUJD] with lifetime
    [ttl], answers [verify] with [verify_status], reports [leds] LEDs and
    accepts everything else. *)
Definition device (leds : value) (ttl verify_status : Z)
    (history : list event) (rq : request) : reply :=
  if String.eqb (url rq) "http://lights/xled/v1/login" then
    Answers {| status_code := 200;
               json_body := Some (PyDict
                 [("authentication_token", PyStr "QUJD");
                  ("authentication_token_expires_in", PyInt ttl);
                  ("code", PyInt 1000)]) |}
  else if String.eqb (url rq) "http://lights/xled/v1/verify" then
    Answers {| status_code := verify_status; json_body := Some ok_body |}
  else if String.eqb (url rq) "http://lights/xled/v1/gestalt" then
    Answers {| status_code := 200;
               json_body := Some (PyDict [("number_of_led", leds);
                                          ("code", PyInt 1000)]) |}
  else Answers {| status_code := 200; json_body := Some ok_body |}.

Definition lab (leds : value) (ttl verify_status : Z) (file : list byte) : env :=
  {| challenge := fun _ => "AAAAAAAAAAAAAAAAAAAAAAAAAAAAAAAAAAAAAAAAAAA=";
     respond := device leds ttl verify_status;
     sendto := fun _ _ => None;
     b64decode := b64decode_std;
     json_loads := fun text =>
       if String.eqb text "{}" then Some (PyDict []) else None;
     read_file := fun _ => Ok file |}.

(** The command line [--host lights <c>]. *)
Definition cli (c : subcommand) : argv :=
  {| arg_host := "lights"; arg_debug := false; arg_json := false;
     arg_command := c |}.

(** A request as the example device sees it once the session is up. *)
Definition authed (m : verb) (endpoint : string) (c : content) : request :=
  {| method := m;
     url := ("http://lights/xled/v1/" ++ endpoint)%string;
     auth_header := Some (PyStr "QUJD");
     body := c |}.

(** The example device, except that the request to [path] gets the
    reply [rp]. *)
Definition lab_but (path : string) (rp : reply) (leds : value) (ttl : Z)
    (file : list byte) : env :=
  {| challenge := challenge (lab leds ttl 200 file);
     respond := fun history rq =>
       if String.eqb (url rq) ("http://lights/xled/v1/" ++ path)%string
       then rp
       else device leds ttl 200 history rq;
     sendto := sendto (lab leds ttl 200 file);
     b64decode := b64decode (lab leds ttl 200 file);
     json_loads := json_loads (lab leds ttl 200 file);
     read_file := read_file (lab leds ttl 200 file) |}.

(** A reply with status [st] and the JSON body [v]. *)
Definition answer (st : Z) (v : value) : reply :=
  Answers {| status_code := st; json_body := Some v |}.

(** The world before anything ran, at virtual time [t]. *)
Definition boot (t : Z) : world :=
  {| self := unborn "lights"; now := t; log := [] |}.

(** ** Facts about logs *)

Lemma grows_by_refl P w : grows_by P w w.
Proof.
  split; [reflexivity|]. exists []. rewrite app_nil_r. auto.
Qed.

Lemma grows_by_trans P w1 w2 w3 :
  grows_by P w1 w2 -> grows_by P w2 w3 -> grows_by P w1 w3.
Proof.
  intros [T1 [e1 [L1 F1]]] [T2 [e2 [L2 F2]]]. split; [congruence|].
  exists (e1 ++ e2). split.
  - rewrite L2, L1, app_assoc. reflexivity.
  - apply Forall_app; auto.
Qed.

Lemma grows_by_weaken (P Q : event -> Prop) w w' :
  (forall ev, P ev -> Q ev) -> grows_by P w w' -> grows_by Q w w'.
Proof.
  intros PQ [T [evs [L F]]]. split; [exact T|]. exists evs. split; [exact L|].
  eapply Forall_impl; eauto.
Qed.

Lemma same_device_refl t : same_device t t.
Proof. repeat split. Qed.

Lemma same_device_trans t1 t2 t3 :
  same_device t1 t2 -> same_device t2 t3 -> same_device t1 t3.
Proof.
  unfold same_device. intros (A & B & C) (A' & B' & C'). repeat split; congruence.
Qed.

Section SessionFacts.

Variable E : env.

Lemma session_request_run o m endpoint c w :
  exists r,
    session_request E o m endpoint c w =
      (r, {| self := self w; now := now w;
             log := log w ++ [Http o {| method := m;
                                        url := (base (self w) ++ "/" ++ endpoint)%string;
                                        auth_header := x_auth_token (self w);
                                        body := c |}
                                   (now w) (expires (self w))] |}).
Proof.
  unfold session_request. destruct (respond E (log w) _); eauto.
Qed.

Lemma login_post w :
  grows_by (fun ev => is_http ev = true /\ sent_fresh ev = true) w (snd (login E w))
  /\ same_device (self w) (self (snd (login E w))).
Proof.
  unfold login, bind.
  destruct (session_request_run Direct POST "login"
              (Json (PyDict [("challenge", PyStr (challenge E (log w)))])) w) as [r ->].
  set (w1 := {| self := self w; now := now w; log := _ |}).
  assert (G : grows_by (fun ev => is_http ev = true /\ sent_fresh ev = true) w w1).
  { split; [reflexivity|]. eexists. split; [reflexivity|]. repeat constructor. }
  destruct r as [r|e]; [|split; [exact G | apply same_device_refl]].
  unfold raise_for_status, json, raise, ret, lift, set_token, set_header,
    set_expires, get_self, set_self, time_time, bind.
  repeat match goal with
         | |- context [if ?b then _ else _] => destruct b
         | |- context [match json_body ?r with _ => _ end] => destruct (json_body r)
         | |- context [match subscript ?v ?k with _ => _ end] => destruct (subscript v k)
         | |- context [match as_int ?v with _ => _ end] => destruct (as_int v)
         end; simpl; (split; [exact G | repeat split]).
Qed.

Lemma expired_false t clock :
  expired t clock = false <-> exists e, expires t = Some e /\ clock < e.
Proof.
  unfold expired. destruct (expires t) as [e|].
  - rewrite Z.leb_gt. split; [eauto|]. intros (e' & [= <-] & H). exact H.
  - split; [discriminate|]. intros (e' & [=] & _).
Qed.

Lemma expired_true t clock :
  expired t clock = true <->
  expires t = None \/ exists e, expires t = Some e /\ e <= clock.
Proof.
  unfold expired. destruct (expires t) as [e|].
  - rewrite Z.leb_le. split; [eauto|]. intros [[=]|(e' & [= <-] & H)]. exact H.
  - split; auto.
Qed.

(** What every run of [ensure_token] guarantees, whatever the device
    does: it only talks HTTP, every request it sends through a helper is
    fresh, it leaves host, port and LED count alone, and when it returns
    the stored expiry lies after the clock. *)
Lemma ensure_token_post fuel : forall w,
  grows_by session_event w (snd (ensure_token E fuel w))
  /\ same_device (self w) (self (snd (ensure_token E fuel w)))
  /\ (is_ok (fst (ensure_token E fuel w)) = true ->
      expired (self (snd (ensure_token E fuel w)))
              (now (snd (ensure_token E fuel w))) = false).
Proof.
  induction fuel as [|fuel IH]; intros w; simpl.
  - split; [apply grows_by_refl|]. split; [apply same_device_refl|]. discriminate.
  - destruct (expired (self w) (now w)) eqn:X.
    + destruct (login_post w) as [G1 D1].
      unfold verify_login_with, _post_with, bind.
      destruct (login E w) as [[[]|e] w1]; simpl in G1, D1.
      2:{ simpl. split; [exact G1|]. split; [exact D1|]. discriminate. }
      destruct (IH w1) as (G2 & D2 & V2).
      destruct (ensure_token E fuel w1) as [[[]|e] w2]; simpl in G2, D2, V2.
      2:{ simpl. split; [eapply grows_by_trans; eauto|].
          split; [eapply same_device_trans; eauto|]. discriminate. }
      specialize (V2 eq_refl).
      destruct (session_request_run Helper POST "verify" (Json (PyDict [])) w2)
        as [r ->].
      set (w3 := {| self := self w2; now := now w2; log := _ |}).
      assert (G3 : grows_by session_event w2 w3).
      { split; [reflexivity|]. eexists. split; [reflexivity|].
        constructor; [|constructor]. split; [reflexivity|]. simpl.
        apply expired_false in V2. destruct V2 as (e & -> & Hlt).
        apply Z.ltb_lt. exact Hlt. }
      assert (G : grows_by session_event w w3)
        by (eapply grows_by_trans; [|exact G3]; eapply grows_by_trans; eauto).
      assert (D : same_device (self w) (self w3))
        by (eapply same_device_trans; eauto).
      destruct r as [r|e]; simpl; [|split; [exact G|split; [exact D|discriminate]]].
      unfold raise_for_status, raise, ret.
      destruct ((400 <=? status_code r) && (status_code r <? 600)); simpl;
        (split; [exact G|split; [exact D|]]); [discriminate|].
      intros _. exact V2.
    + simpl. split; [apply grows_by_refl|]. split; [apply same_device_refl|].
      intros _. exact X.
Qed.

(** With an expiry in the future [ensure_token] does nothing at all. *)
Lemma ensure_token_valid fuel w :
  expired (self w) (now w) = false ->
  ensure_token E (S fuel) w = (Ok tt, w).
Proof.
  intros X. simpl. rewrite X. reflexivity.
Qed.

End SessionFacts.

Example b64decode_std_QUJD : b64decode_std "QUJD" = Some [x41; x42; x43].
Proof. reflexivity. Qed.

Example b64decode_std_padded : b64decode_std "QUI=" = Some [x41; x42].
Proof. reflexivity. Qed.

(** ** Tidy computations *)

Lemma bind_run A B (m : M A) (k : A -> M B) w :
  bind m k w =
    match m w with
    | (Ok a, w1) => k a w1
    | (Raise e, w1) => (Raise e, w1)
    end.
Proof. reflexivity. Qed.

Section Tidy.

Variable P : event -> Prop.

Lemma tidy_ret A (a : A) : tidy P (ret a).
Proof. intros w. apply grows_by_refl. Qed.

Lemma tidy_raise A e : tidy P (@raise A e).
Proof. intros w. apply grows_by_refl. Qed.

Lemma tidy_lift A (o : outcome A) : tidy P (lift o).
Proof. intros w. apply grows_by_refl. Qed.

Lemma tidy_get_self : tidy P get_self.
Proof. intros w. apply grows_by_refl. Qed.

Lemma tidy_time_time : tidy P time_time.
Proof. intros w. apply grows_by_refl. Qed.

Lemma tidy_set_self t : tidy P (set_self t).
Proof.
  intros w. split; [reflexivity|]. exists []. simpl. rewrite app_nil_r. auto.
Qed.

Lemma tidy_bind A B (m : M A) (k : A -> M B) :
  tidy P m -> (forall a, tidy P (k a)) -> tidy P (bind m k).
Proof.
  intros Hm Hk w. unfold bind. specialize (Hm w).
  destruct (m w) as [[a|e] w1]; simpl in Hm; [|exact Hm].
  eapply grows_by_trans; [exact Hm|apply Hk].
Qed.

Lemma tidy_emit ev : P ev -> tidy P (emit ev).
Proof.
  intros H w. split; [reflexivity|]. exists [ev]. simpl. auto.
Qed.

Lemma tidy_getattr args attr : tidy P (getattr args attr).
Proof.
  unfold getattr. destruct (assoc attr args); [apply tidy_ret|apply tidy_raise].
Qed.

Lemma tidy_raise_for_status r : tidy P (raise_for_status r).
Proof.
  unfold raise_for_status.
  destruct ((400 <=? status_code r) && (status_code r <? 600));
    [apply tidy_raise|apply tidy_ret].
Qed.

Lemma tidy_json r : tidy P (json r).
Proof.
  unfold json. destruct (json_body r); [apply tidy_ret|apply tidy_raise].
Qed.

Lemma tidy_set_token v : tidy P (set_token v).
Proof. apply tidy_bind; [apply tidy_get_self|intros; apply tidy_set_self]. Qed.

Lemma tidy_set_length v : tidy P (set_length v).
Proof. apply tidy_bind; [apply tidy_get_self|intros; apply tidy_set_self]. Qed.

End Tidy.

Create HintDb tidy.
#[local] Hint Resolve tidy_ret tidy_raise tidy_lift tidy_get_self tidy_time_time
  tidy_set_self tidy_getattr tidy_raise_for_status tidy_json tidy_set_token
  tidy_set_length : tidy.

(** Splits a computation along its binds and conditionals. *)
Ltac tidy_steps :=
  repeat first
    [ solve [auto with tidy]
    | match goal with
      | |- tidy _ (bind _ _) => apply tidy_bind; [|intros]
      | |- tidy _ (if ?b then _ else _) => destruct b
      | |- tidy _ (match ?x with _ => _ end) => destruct x
      end ].

Section HelperFacts.

Variable E : env.

Lemma tidy_ensure_token fuel : tidy session_event (ensure_token E fuel).
Proof. intros w. apply (ensure_token_post E fuel w). Qed.

(** A helper is [ensure_token] followed, when that returns, by exactly one
    request; on the virtual clock, which stands during the call, the
    stored expiry is still ahead as it leaves. *)
Lemma helper_run m endpoint c fuel w :
  let w1 := snd (ensure_token E fuel w) in
  let go := (ensure_token E fuel ;; session_request E Helper m endpoint c) in
  match fst (ensure_token E fuel w) with
  | Raise e => go w = (Raise e, w1)
  | Ok _ =>
      exists e,
        expires (self w1) = Some e /\ now w1 < e /\
        log (snd (go w)) =
          log w1 ++ [Http Helper
                       {| method := m;
                          url := (base (self w1) ++ "/" ++ endpoint)%string;
                          auth_header := x_auth_token (self w1);
                          body := c |}
                       (now w1) (Some e)]
  end.
Proof.
  intros w1 go. subst w1 go. unfold bind.
  destruct (ensure_token_post E fuel w) as (_ & _ & V).
  destruct (ensure_token E fuel w) as [[[]|e] w1]; simpl in *; [|reflexivity].
  apply expired_false in V; [|reflexivity]. destruct V as (e & He & Hlt).
  exists e. split; [exact He|]. split; [exact Hlt|].
  destruct (session_request_run E Helper m endpoint c w1) as [r ->]. simpl.
  rewrite He. reflexivity.
Qed.

Lemma tidy_helper m endpoint c fuel :
  tidy session_event (ensure_token E fuel ;; session_request E Helper m endpoint c).
Proof.
  intros w. pose proof (helper_run m endpoint c fuel w) as H.
  pose proof (tidy_ensure_token fuel w) as G. simpl in H.
  destruct (fst (ensure_token E fuel w)).
  - destruct H as (e & He & Hlt & L).
    eapply grows_by_trans; [exact G|]. split.
    + unfold bind. destruct (ensure_token E fuel w) as [[?|?] w1]; simpl; [|reflexivity].
      destruct (session_request_run E Helper m endpoint c w1) as [r ->]. reflexivity.
    + eexists. split; [exact L|]. constructor; [|constructor].
      split; [reflexivity|]. simpl. apply Z.ltb_lt. exact Hlt.
  - rewrite H. exact G.
Qed.

Lemma tidy_post fuel endpoint c : tidy session_event (_post E fuel endpoint c).
Proof. apply tidy_helper. Qed.

Lemma tidy_get fuel endpoint : tidy session_event (_get E fuel endpoint).
Proof. apply tidy_helper. Qed.

End HelperFacts.

(** ** Renewal *)

Section Renewal.

Variable E : env.

Lemma login_granted w tok ttl :
  grants (respond E (log w) (login_request E w)) tok ttl ->
  login E w =
    (Ok tt, {| self := installed tok (now w + ttl) (self w); now := now w;
               log := log w ++ [login_event E w] |}).
Proof.
  intros (st & r & v & R & S & Tk & Tt & I).
  unfold login, bind, session_request. cbv zeta.
  change {| method := POST; url := _; auth_header := _; body := _ |}
    with (login_request E w).
  rewrite R.
  unfold raise_for_status. cbn [status_code json_body]. rewrite S.
  unfold json, ret, lift. cbn [json_body]. rewrite Tk, Tt, I.
  reflexivity.
Qed.

(** A renewal whose login is granted with a positive lifetime: the log
    gains the login and the verify request, the session is installed, and
    the outcome is that of the verify request. *)
Lemma renewal_run fuel w tok ttl :
  expired (self w) (now w) = true ->
  grants (respond E (log w) (login_request E w)) tok ttl ->
  0 < ttl ->
  ensure_token E (S (S fuel)) w =
    (match reply_error (verify_reply E tok ttl w) with
     | Some err => Raise err
     | None => Ok tt
     end, renewed E tok ttl w).
Proof.
  intros X G Pos. cbn [ensure_token]. rewrite X.
  unfold bind at 1. rewrite (login_granted w tok ttl G).
  unfold verify_login_with, _post_with, bind.
  assert (V : expired (installed tok (now w + ttl) (self w)) (now w) = false).
  { unfold expired. simpl. apply Z.leb_gt. lia. }
  cbn [self now]. rewrite V.
  unfold session_request, verify_reply, reply_error, renewed, verify_event,
    verify_request, raise_for_status, raise, ret. cbn [self now log].
  clear G. rewrite <- app_assoc. cbn [app].
  destruct (respond E _ _) as [e|r]; [reflexivity|].
  destruct ((400 <=? status_code r) && (status_code r <? 600)); reflexivity.
Qed.

(** Whatever the device answers, a renewal starts with the login request. *)
Lemma renewal_starts_with_login fuel w :
  expired (self w) (now w) = true ->
  exists rest,
    log (snd (ensure_token E (S fuel) w)) = log w ++ login_event E w :: rest.
Proof.
  intros X. cbn [ensure_token]. rewrite X.
  unfold bind at 1.
  destruct (session_request_run E Direct POST "login"
              (Json (PyDict [("challenge", PyStr (challenge E (log w)))])) w)
    as [r Hr].
  assert (L : exists w1, login E w = (fst (login E w), w1) /\
                         log w1 = log w ++ [login_event E w]).
  { unfold login, bind. rewrite Hr. destruct r as [r|e].
    - unfold raise_for_status, json, raise, ret, lift, set_token, set_header,
        set_expires, get_self, set_self, time_time, bind.
      repeat match goal with
             | |- context [if ?b then _ else _] => destruct b
             | |- context [match json_body ?r with _ => _ end] => destruct (json_body r)
             | |- context [match subscript ?v ?k with _ => _ end] => destruct (subscript v k)
             | |- context [match as_int ?v with _ => _ end] => destruct (as_int v)
             end; simpl; eexists; split; reflexivity.
    - simpl. eexists; split; reflexivity. }
  destruct L as (w1 & L1 & L2). rewrite L1.
  destruct (fst (login E w)) as [[]|e]; simpl.
  - pose proof (tidy_ensure_token E fuel) as T1.
    assert (T : tidy session_event (verify_login_with E (ensure_token E fuel))).
    { unfold verify_login_with. apply tidy_bind; [apply tidy_helper|].
      intros; apply tidy_raise_for_status. }
    destruct (T w1) as (_ & evs & L & _). exists evs. rewrite L, L2.
    rewrite <- app_assoc. reflexivity.
  - exists []. exact L2.
Qed.

Lemma repeat_call_valid fuel w n :
  expired (self w) (now w) = false ->
  repeat_call n (ensure_token E (S fuel)) w = (Ok tt, w).
Proof.
  intros X. induction n as [|n IH]; [reflexivity|].
  cbn [repeat_call]. unfold bind. rewrite (ensure_token_valid E fuel w X).
  exact IH.
Qed.

End Renewal.

Section Invalidation.

Variable E : env.

(** A helper that returns leaves a session whose expiry is ahead. *)
Lemma helper_ok_valid m endpoint c fuel w :
  is_ok (fst ((ensure_token E fuel ;; session_request E Helper m endpoint c) w)) = true ->
  expired
    (self (snd ((ensure_token E fuel ;; session_request E Helper m endpoint c) w)))
    (now (snd ((ensure_token E fuel ;; session_request E Helper m endpoint c) w)))
  = false.
Proof.
  unfold bind. destruct (ensure_token_post E fuel w) as (_ & _ & V).
  destruct (ensure_token E fuel w) as [[[]|e] w1]; simpl in *; [|discriminate].
  destruct (session_request_run E Helper m endpoint c w1) as [r ->]. simpl.
  intros _. apply V. reflexivity.
Qed.

Lemma logout_ok_state fuel w :
  fst (logout E fuel w) = Ok tt ->
  _token (self (snd (logout E fuel w))) = PyNone
  /\ expired (self (snd (logout E fuel w))) (now (snd (logout E fuel w))) = false.
Proof.
  assert (R : logout E fuel w =
              match (ensure_token E fuel ;;
                     session_request E Helper POST "logout" (Json (PyDict []))) w with
              | (Ok r, w1) => (raise_for_status r ;; set_token PyNone) w1
              | (Raise e, w1) => (Raise e, w1)
              end) by reflexivity.
  rewrite R. clear R.
  pose proof (helper_ok_valid POST "logout" (Json (PyDict [])) fuel w) as V.
  destruct ((ensure_token E fuel ;; session_request E Helper POST "logout"
               (Json (PyDict []))) w) as [[r|e] w1]; simpl in V; [|discriminate].
  specialize (V eq_refl).
  unfold raise_for_status, bind, raise, ret, set_token, get_self, set_self.
  destruct ((400 <=? status_code r) && (status_code r <? 600)); simpl;
    [discriminate|].
  intros _. split; [reflexivity|exact V].
Qed.

End Invalidation.

(** C2, where the code departs from it.  [ensure_token] decides by the
    stored expiry alone: it runs the login and verify protocol exactly
    when no expiry is stored ([self.expires is None], the state
    [__init__] leaves) or the stored expiry is at or before the clock,
    and does nothing otherwise.  It never looks at the token.
    - When it renews, the first thing on the wire is the login request;
      if the device grants a token with lifetime [ttl > 0] and accepts the
      verify request, the call returns with exactly those two requests
      logged, the token installed and the expiry set to [now + ttl].
    - With an expiry still ahead the call returns at once and leaves the
      world as it was, the property [token] hands out the cached token as
      it is, and any number of repeated calls does the same.
    - So with no token stored and an expiry still ahead, [ensure_token]
      does not log in: it returns at once, any number of times, and
      [token] hands out [None].  That is the state every [logout] that
      returns leaves behind. *)
Theorem ensure_token_renews_by_expiry_alone (E : env) (fuel : nat)
    (w : world) :
  (expired (self w) (now w) = true <->
     expires (self w) = None \/
     exists e, expires (self w) = Some e /\ e <= now w)
  /\ (expired (self w) (now w) = true ->
        (exists rest,
            log (snd (ensure_token E (S fuel) w)) =
              log w ++ login_event E w :: rest)
        /\ forall tok ttl,
             grants (respond E (log w) (login_request E w)) tok ttl ->
             0 < ttl ->
             reply_error (verify_reply E tok ttl w) = None ->
             ensure_token E (S (S fuel)) w = (Ok tt, renewed E tok ttl w)
             /\ expires (self (renewed E tok ttl w)) = Some (now w + ttl)
             /\ _token (self (renewed E tok ttl w)) = tok
             /\ log (renewed E tok ttl w) =
                  log w ++ [login_event E w;
                            verify_event (installed tok (now w + ttl) (self w))
                                         (now w)])
  /\ (expired (self w) (now w) = false ->
        ensure_token E (S fuel) w = (Ok tt, w)
        /\ token E (S fuel) w = (Ok (_token (self w)), w)
        /\ forall n, repeat_call n (ensure_token E (S fuel)) w = (Ok tt, w))
  /\ (forall e,
        _token (self w) = PyNone -> expires (self w) = Some e -> now w < e ->
        ensure_token E (S fuel) w = (Ok tt, w)
        /\ token E (S fuel) w = (Ok PyNone, w)
        /\ forall n, repeat_call n (ensure_token E (S fuel)) w = (Ok tt, w))
  /\ (fst (logout E fuel w) = Ok tt ->
        let w' := snd (logout E fuel w) in
        _token (self w') = PyNone
        /\ (exists e, expires (self w') = Some e /\ now w' < e)
        /\ forall n, repeat_call n (ensure_token E (S fuel)) w' = (Ok tt, w')).
Proof.
  assert (Idle : forall w0, expired (self w0) (now w0) = false ->
            ensure_token E (S fuel) w0 = (Ok tt, w0)
            /\ token E (S fuel) w0 = (Ok (_token (self w0)), w0)
            /\ forall n, repeat_call n (ensure_token E (S fuel)) w0 = (Ok tt, w0)).
  { intros w0 X. split; [apply ensure_token_valid; exact X|]. split.
    - unfold token, bind. rewrite (ensure_token_valid E fuel w0 X). reflexivity.
    - intros n. apply repeat_call_valid. exact X. }
  split; [apply expired_true|]. split; [|split; [|split]].
  - intros X. split; [apply renewal_starts_with_login; exact X|].
    intros tok ttl G Pos V.
    rewrite (renewal_run E fuel w tok ttl X G Pos), V.
    repeat split.
  - exact (Idle w).
  - intros e T X Hlt.
    assert (V : expired (self w) (now w) = false).
    { unfold expired. rewrite X. apply Z.leb_gt. exact Hlt. }
    destruct (Idle w V) as (A & B & C). rewrite T in B.
    split; [exact A|]. split; [exact B|exact C].
  - intros H w'. destruct (logout_ok_state E fuel w H) as [T V].
    fold w' in T, V.
    split; [exact T|]. split; [apply expired_false; exact V|].
    apply (Idle w' V).
Qed.

(** The scenario of C2 on the example device: a login at virtual time
    1000 with lifetime 3600 sets the expiry to 4600; a call at 4599 does
    nothing, however often it is repeated; calls at 4600 and at 4601
    renew, each with a login and a verify request.  After a [logout] at
    1000 no token is stored, and [ensure_token] still does nothing. *)
Lemma ensure_token_renews_by_expiry_alone_witness :
  let E := lab (PyInt 10) 3600 200 [] in
  let w1 := renewed E (PyStr "QUJD") 3600 (boot 1000) in
  let w2 := snd (logout E 2 w1) in
  ensure_token E 2 (boot 1000) = (Ok tt, w1)
  /\ expires (self w1) = Some 4600
  /\ _token (self w1) = PyStr "QUJD"
  /\ ensure_token E 1 (at_time 4599 w1) = (Ok tt, at_time 4599 w1)
  /\ repeat_call 7 (ensure_token E 1) (at_time 4599 w1) = (Ok tt, at_time 4599 w1)
  /\ ensure_token E 2 (at_time 4600 w1) =
       (Ok tt, renewed E (PyStr "QUJD") 3600 (at_time 4600 w1))
  /\ ensure_token E 2 (at_time 4601 w1) =
       (Ok tt, renewed E (PyStr "QUJD") 3600 (at_time 4601 w1))
  /\ fst (logout E 2 w1) = Ok tt
  /\ _token (self w2) = PyNone
  /\ expires (self w2) = Some 4600
  /\ ensure_token E 3 w2 = (Ok tt, w2)
  /\ token E 3 w2 = (Ok PyNone, w2).
Proof.
  intros E w1 w2.
  assert (G : forall t l,
             grants (respond E l
                       (login_request E {| self := self w1; now := t; log := l |}))
                    (PyStr "QUJD") 3600).
  { intros t l.
    exists 200, (PyDict [("authentication_token", PyStr "QUJD");
                         ("authentication_token_expires_in", PyInt 3600);
                         ("code", PyInt 1000)]), (PyInt 3600).
    repeat split. }
  destruct (ensure_token_renews_by_expiry_alone E 0 (boot 1000))
    as (_ & R0 & _).
  destruct (R0 eq_refl) as (_ & R1).
  destruct (R1 (PyStr "QUJD") 3600 (G 1000 []) ltac:(lia) eq_refl)
    as (A & B & C & _).
  destruct (ensure_token_renews_by_expiry_alone E 0 (at_time 4599 w1))
    as (_ & _ & V & _).
  destruct (V eq_refl) as (V1 & _ & V2).
  destruct (ensure_token_renews_by_expiry_alone E 0 (at_time 4600 w1))
    as (_ & X0 & _).
  destruct (X0 eq_refl) as (_ & X1).
  destruct (X1 (PyStr "QUJD") 3600 (G 4600 (log w1)) ltac:(lia) eq_refl)
    as (X2 & _).
  destruct (ensure_token_renews_by_expiry_alone E 0 (at_time 4601 w1))
    as (_ & Y0 & _).
  destruct (Y0 eq_refl) as (_ & Y1).
  destruct (Y1 (PyStr "QUJD") 3600 (G 4601 (log w1)) ltac:(lia) eq_refl)
    as (Y2 & _).
  destruct (ensure_token_renews_by_expiry_alone E 2 w2)
    as (_ & _ & _ & L0 & _).
  destruct (L0 4600 eq_refl eq_refl ltac:(simpl; lia)) as (L1 & L2 & _).
  split; [exact A|]. split; [exact B|]. split; [exact C|].
  split; [exact V1|]. split; [exact (V2 7%nat)|].
  split; [exact X2|]. split; [exact Y2|].
  split; [reflexivity|]. split; [reflexivity|]. split; [reflexivity|].
  split; [exact L1|exact L2].
Defined.

(** The same scenario at any virtual time [T]. *)
Lemma renewal_scenario (T : Z) :
  let E := lab (PyInt 10) 3600 200 [] in
  let w1 := renewed E (PyStr "QUJD") 3600 (boot T) in
  ensure_token E 2 (boot T) = (Ok tt, w1)
  /\ expires (self w1) = Some (T + 3600)
  /\ expired (self w1) (T + 3599) = false
  /\ expired (self w1) (T + 3600) = true
  /\ expired (self w1) (T + 3601) = true.
Proof.
  intros E w1. split.
  - rewrite (renewal_run E 0 (boot T) (PyStr "QUJD") 3600);
      [reflexivity|reflexivity| |lia].
    exists 200, (PyDict [("authentication_token", PyStr "QUJD");
                         ("authentication_token_expires_in", PyInt 3600);
                         ("code", PyInt 1000)]), (PyInt 3600).
    repeat split.
  - split; [reflexivity|]. unfold expired. simpl.
    split; [apply Z.leb_gt; lia|]. split; apply Z.leb_le; lia.
Qed.

(** ** Failing verification and logout *)

(** C5, as the code has it.  When the login is granted (lifetime
    [ttl > 0]) and the verify request then fails, by a transport error or
    an error status, [ensure_token] raises that one exception; the token,
    the header and the expiry that [login] stored stay in place.  From
    then on, at every clock [t] before that expiry, [ensure_token]
    returns at once and the next request goes out under that token, with
    no further login or verify; at a clock at or after the expiry the
    next [ensure_token] starts over with a login. *)
Theorem failed_verify_raises_once_and_keeps_token (E : env) (fuel : nat)
    (w : world) (tok : value) (ttl : Z) (err : exn) :
  expired (self w) (now w) = true ->
  grants (respond E (log w) (login_request E w)) tok ttl ->
  0 < ttl ->
  reply_error (verify_reply E tok ttl w) = Some err ->
  let w1 := renewed E tok ttl w in
  ensure_token E (S (S fuel)) w = (Raise err, w1)
  /\ _token (self w1) = tok
  /\ x_auth_token (self w1) = Some tok
  /\ expires (self w1) = Some (now w + ttl)
  /\ (forall f, ensure_token E (S f) w1 = (Ok tt, w1))
  /\ (forall f endpoint,
        log (snd (_get E (S f) endpoint w1)) =
          log w1 ++ [Http Helper
                       {| method := GET;
                          url := (base (self w1) ++ "/" ++ endpoint)%string;
                          auth_header := Some tok;
                          body := NoBody |}
                       (now w) (Some (now w + ttl))])
  /\ (forall t f endpoint c,
        t < now w + ttl ->
        ensure_token E (S f) (at_time t w1) = (Ok tt, at_time t w1)
        /\ log (snd (_get E (S f) endpoint (at_time t w1))) =
             log w1 ++ [Http Helper
                          {| method := GET;
                             url := (base (self w1) ++ "/" ++ endpoint)%string;
                             auth_header := Some tok;
                             body := NoBody |}
                          t (Some (now w + ttl))]
        /\ log (snd (_post E (S f) endpoint c (at_time t w1))) =
             log w1 ++ [Http Helper
                          {| method := POST;
                             url := (base (self w1) ++ "/" ++ endpoint)%string;
                             auth_header := Some tok;
                             body := c |}
                          t (Some (now w + ttl))])
  /\ (forall t f,
        now w + ttl <= t ->
        exists rest,
          log (snd (ensure_token E (S f) (at_time t w1))) =
            log w1 ++ login_event E (at_time t w1) :: rest).
Proof.
  intros X G Pos V w1.
  assert (Valid : forall t, t < now w + ttl ->
                    expired (self (at_time t w1)) (now (at_time t w1)) = false).
  { intros t Ht. unfold expired. simpl. apply Z.leb_gt. exact Ht. }
  assert (Valid1 : expired (self w1) (now w1) = false).
  { unfold expired. simpl. apply Z.leb_gt. lia. }
  split; [rewrite (renewal_run E fuel w tok ttl X G Pos), V; reflexivity|].
  repeat (split; [reflexivity|]). split; [|split; [|split]].
  - intros f. apply ensure_token_valid. exact Valid1.
  - intros f endpoint. unfold _get, _get_with, bind.
    rewrite (ensure_token_valid E f w1 Valid1).
    destruct (session_request_run E Helper GET endpoint NoBody w1) as [r ->].
    reflexivity.
  - intros t f endpoint c Ht. specialize (Valid t Ht).
    split; [apply ensure_token_valid; exact Valid|].
    unfold _get, _get_with, _post, _post_with, bind.
    rewrite (ensure_token_valid E f (at_time t w1) Valid).
    destruct (session_request_run E Helper GET endpoint NoBody (at_time t w1))
      as [r ->].
    destruct (session_request_run E Helper POST endpoint c (at_time t w1))
      as [r' ->].
    split; reflexivity.
  - intros t f Ht.
    apply (renewal_starts_with_login E f (at_time t w1)).
    unfold expired. simpl. apply Z.leb_le. exact Ht.
Qed.

(** On the example device answering [verify] with status 401: the login
    at 1000 is kept until 4600; a read of the mode at 4599 goes out
    under it. *)
Lemma failed_verify_raises_once_and_keeps_token_witness :
  let E := lab (PyInt 10) 3600 401 [] in
  let w1 := renewed E (PyStr "QUJD") 3600 (boot 1000) in
  ensure_token E 2 (boot 1000) = (Raise (HTTPError 401), w1)
  /\ _token (self w1) = PyStr "QUJD"
  /\ expires (self w1) = Some 4600
  /\ ensure_token E 1 w1 = (Ok tt, w1)
  /\ ensure_token E 1 (at_time 4599 w1) = (Ok tt, at_time 4599 w1)
  /\ log (snd (_get E 1 "led/mode" (at_time 4599 w1))) =
       log w1 ++ [Http Helper (authed GET "led/mode" NoBody) 4599 (Some 4600)]
  /\ exists rest,
       log (snd (ensure_token E 1 (at_time 4600 w1))) =
         log w1 ++ login_event E (at_time 4600 w1) :: rest.
Proof.
  intros E w1.
  destruct (failed_verify_raises_once_and_keeps_token E 0 (boot 1000)
              (PyStr "QUJD") 3600 (HTTPError 401))
    as (A & B & _ & C & D & _ & R & N).
  - reflexivity.
  - exists 200, (PyDict [("authentication_token", PyStr "QUJD");
                         ("authentication_token_expires_in", PyInt 3600);
                         ("code", PyInt 1000)]), (PyInt 3600).
    repeat split.
  - lia.
  - reflexivity.
  - destruct (R 4599 0%nat "led/mode" NoBody ltac:(simpl; lia)) as (R1 & R2 & _).
    split; [exact A|]. split; [exact B|]. split; [exact C|].
    split; [exact (D 0%nat)|]. split; [exact R1|]. split; [exact R2|].
    exact (N 4600 0%nat ltac:(simpl; lia)).
Defined.

(** C5 as stated fails: on the example device answering [verify] with
    status 401 the renewal raises, yet the token stays installed, the
    session counts as valid, and the next operation sends its request
    under that token without logging in again. *)
Lemma failed_verify_token_reused :
  let E := lab (PyInt 10) 3600 401 [] in
  let w1 := snd (ensure_token E 2 (boot 1000)) in
  fst (ensure_token E 2 (boot 1000)) = Raise (HTTPError 401)
  /\ x_auth_token (self w1) = Some (PyStr "QUJD")
  /\ ~ expired (self w1) (now w1) = true
  /\ get_mode E 2 w1 =
       (Ok ok_body,
        {| self := self w1; now := 1000;
           log := log w1 ++
                  [Http Helper
                     {| method := GET;
                        url := "http://lights/xled/v1/led/mode";
                        auth_header := Some (PyStr "QUJD");
                        body := NoBody |}
                     1000 (Some 4600)] |}).
Proof.
  intros E w1. split; [reflexivity|]. split; [reflexivity|].
  split; [discriminate|reflexivity].
Qed.

(** C7, where the code departs from it.  Whenever [logout] returns, the
    token is cleared but the expiry is still stored and still ahead: the
    next [ensure_token] does nothing, and the property [token] hands out
    [None]. *)
Theorem logout_keeps_session_valid (E : env) (fuel : nat) (w : world) :
  fst (logout E fuel w) = Ok tt ->
  let w' := snd (logout E fuel w) in
  _token (self w') = PyNone
  /\ (exists e, expires (self w') = Some e /\ now w' < e)
  /\ (forall f, ensure_token E (S f) w' = (Ok tt, w'))
  /\ (forall f, token E (S f) w' = (Ok PyNone, w')).
Proof.
  intros H w'. destruct (logout_ok_state E fuel w H) as [T V]. fold w' in T, V.
  split; [exact T|]. split; [apply expired_false; exact V|]. split.
  - intros f. apply ensure_token_valid. exact V.
  - intros f. unfold token, bind. rewrite (ensure_token_valid E f w' V).
    simpl. rewrite T. reflexivity.
Qed.

(** On the example device: log in at time 1000, log out, ask again. *)
Lemma logout_keeps_session_valid_witness :
  let E := lab (PyInt 10) 3600 200 [] in
  let w1 := snd (ensure_token E 2 (boot 1000)) in
  let w2 := snd (logout E 2 w1) in
  fst (logout E 2 w1) = Ok tt
  /\ _token (self w2) = PyNone
  /\ expires (self w2) = Some 4600
  /\ x_auth_token (self w2) = Some (PyStr "QUJD")
  /\ ensure_token E 2 w2 = (Ok tt, w2)
  /\ token E 2 w2 = (Ok PyNone, w2).
Proof.
  intros E w1 w2.
  destruct (logout_keeps_session_valid E 2 w1 eq_refl) as (A & _ & C & D).
  split; [reflexivity|]. split; [exact A|]. split; [reflexivity|].
  split; [reflexivity|]. split; [exact (C 1%nat)|exact (D 1%nat)].
Defined.

(** ** Bytes and payloads *)

Lemma byte_of_Z_some z :
  0 <= z < 256 -> exists b, byte_of_Z z = Some b /\ Z_of_byte b = z.
Proof.
  intros [Lo Hi]. unfold byte_of_Z.
  replace ((0 <=? z) && (z <? 256)) with true
    by (symmetry; apply andb_true_iff; split; [apply Z.leb_le|apply Z.ltb_lt]; lia).
  destruct (Byte.of_N (Z.to_N z)) as [b|] eqn:B.
  - exists b. split; [reflexivity|]. unfold Z_of_byte.
    rewrite (Byte.to_of_N _ B). apply Z2N.id. exact Lo.
  - apply Byte.of_N_None_iff in B. lia.
Qed.

Lemma byte_of_Z_none z : ~ (0 <= z < 256) -> byte_of_Z z = None.
Proof.
  intros H. unfold byte_of_Z.
  destruct (0 <=? z) eqn:A; [|reflexivity].
  destruct (z <? 256) eqn:B; [|reflexivity].
  apply Z.leb_le in A. apply Z.ltb_lt in B. lia.
Qed.

Lemma byte_of_Z_inv z b : byte_of_Z z = Some b -> 0 <= z < 256 /\ Z_of_byte b = z.
Proof.
  intros H. destruct (Z_le_dec 0 z) as [Lo|Lo];
    [destruct (Z_lt_dec z 256) as [Hi|Hi]|].
  - split; [lia|]. destruct (byte_of_Z_some z (conj Lo Hi)) as (b' & B & V).
    congruence.
  - rewrite byte_of_Z_none in H by lia. discriminate.
  - rewrite byte_of_Z_none in H by lia. discriminate.
Qed.

Lemma bytes_of_ints_ok l :
  Forall (fun z => 0 <= z < 256) l ->
  exists bs, bytes_of_ints l = Ok bs /\ map Z_of_byte bs = l.
Proof.
  induction 1 as [|z l Hz _ (bs & B & V)]; [exists []; auto|].
  destruct (byte_of_Z_some z Hz) as (b & Bz & Vz).
  exists (b :: bs). simpl. rewrite Bz, B, Vz, V. auto.
Qed.

Lemma bytes_of_ints_inv l bs :
  bytes_of_ints l = Ok bs ->
  Forall (fun z => 0 <= z < 256) l /\ map Z_of_byte bs = l.
Proof.
  revert bs. induction l as [|z l IH]; intros bs; simpl.
  - intros [= <-]. auto.
  - destruct (byte_of_Z z) as [b|] eqn:B; [|discriminate].
    destruct (bytes_of_ints l) as [bs'|e]; [|discriminate].
    intros [= <-]. destruct (IH bs' eq_refl) as [F V].
    destruct (byte_of_Z_inv z b B) as [R Vz]. simpl. rewrite Vz, V. auto.
Qed.

Lemma bytes_of_ints_bad l :
  ~ Forall (fun z => 0 <= z < 256) l ->
  bytes_of_ints l = Raise (ValueError "bytes must be in range(0, 256)").
Proof.
  induction l as [|z l IH]; intros H; [destruct H; constructor|]. simpl.
  destruct (byte_of_Z z) as [b|] eqn:B; [|reflexivity].
  rewrite IH; [reflexivity|]. intros F. apply H. constructor; [|exact F].
  apply (byte_of_Z_inv z b B).
Qed.

Lemma frame_payload_range frame :
  Forall channels_8bit frame <->
  Forall (fun z => 0 <= z < 256) (frame_payload frame).
Proof.
  induction frame as [|[[r g] b] frame IH]; simpl; [split; constructor|].
  split.
  - intros F. inversion F as [|? ? C F']; subst.
    unfold channels_8bit in C. destruct C as (R & G & B).
    repeat constructor; try lia. apply IH. exact F'.
  - intros F. inversion F as [|? ? R F1]; subst.
    inversion F1 as [|? ? G F2]; subst. inversion F2 as [|? ? B F3]; subst.
    constructor; [repeat split; lia|]. apply IH. exact F3.
Qed.

Lemma frame_payload_length frame :
  List.length (frame_payload frame) = (3 * List.length frame)%nat.
Proof.
  induction frame as [|[[r g] b] frame IH]; simpl; [reflexivity|].
  rewrite IH. lia.
Qed.

(** Reading back the bytes of a payload gives the frame it was built from. *)
Lemma decode_payload_round_trip frame colours :
  map Z_of_byte colours = frame_payload frame ->
  decode_payload colours = Some frame.
Proof.
  revert colours. induction frame as [|[[r g] b] frame IH]; intros colours; simpl.
  - destruct colours; [reflexivity|discriminate].
  - destruct colours as [|x [|y [|z rest]]]; try discriminate.
    simpl. intros [= <- <- <- V]. rewrite (IH rest V). reflexivity.
Qed.

Lemma datagrams_app l1 l2 : datagrams (l1 ++ l2) = datagrams l1 ++ datagrams l2.
Proof.
  induction l1 as [|[| |] l1 IH]; simpl; rewrite ?IH; reflexivity.
Qed.

Lemma datagrams_session evs : Forall session_event evs -> datagrams evs = [].
Proof.
  induction 1 as [|ev evs [H _] _ IH]; [reflexivity|].
  destruct ev; try discriminate. exact IH.
Qed.

Lemma grows_by_datagrams w w' :
  grows_by session_event w w' -> datagrams (log w') = datagrams (log w).
Proof.
  intros (_ & evs & L & F). rewrite L, datagrams_app, (datagrams_session evs F).
  apply app_nil_r.
Qed.

(** ** The device operations only talk HTTP, and only with a fresh session *)

#[local] Hint Resolve tidy_post tidy_get tidy_ensure_token : tidy.

Section OperationFacts.

Variable E : env.

Lemma tidy_get_details fuel : tidy session_event (get_details E fuel).
Proof. unfold get_details. tidy_steps. Qed.

Lemma tidy_length_ fuel : tidy session_event (length_ E fuel).
Proof.
  pose proof (tidy_get_details fuel). unfold length_.
  apply tidy_bind; [auto with tidy|]. intros t.
  destruct (_length t); tidy_steps.
Qed.

Lemma tidy_token fuel : tidy session_event (token E fuel).
Proof. unfold token. tidy_steps. Qed.

Lemma length_cached fuel w n :
  _length (self w) = PyInt n -> length_ E fuel w = (Ok (PyInt n), w).
Proof.
  intros H. unfold length_, bind, get_self. rewrite H. reflexivity.
Qed.

Lemma token_same_device fuel w :
  same_device (self w) (self (snd (token E fuel w))).
Proof.
  unfold token, bind, get_self, ret.
  destruct (ensure_token_post E fuel w) as (_ & D & _).
  destruct (ensure_token E fuel w) as [[[]|e] w1]; exact D.
Qed.

(** [send_frame] with the LED count cached, step by step. *)
Lemma send_frame_cached fuel frame w n :
  _length (self w) = PyInt n ->
  send_frame E fuel frame w =
    if negb (Z.of_nat (List.length frame) =? n)
    then (Raise (ValueError "Invalid frame length"), w)
    else
      match token E fuel w with
      | (Raise e, w1) => (Raise e, w1)
      | (Ok tok, w1) =>
          match b64decode_value E tok with
          | Raise e => (Raise e, w1)
          | Ok decoded =>
              match bytes_of_ints [n] with
              | Raise e => (Raise e, w1)
              | Ok count =>
                  match bytes_of_ints (frame_payload frame) with
                  | Raise e => (Raise e, w1)
                  | Ok colours =>
                      socket_sendto E (([x01] ++ decoded ++ count) ++ colours)
                        (host (self w)) (rt_port (self w)) w1
                  end
              end
          end
      end.
Proof.
  intros H. unfold send_frame. unfold bind at 1.
  rewrite (length_cached fuel w n H). unfold int_eq. cbn [as_int].
  destruct (negb (Z.of_nat (List.length frame) =? n)); [reflexivity|].
  unfold bind at 1. pose proof (token_same_device fuel w) as (Dh & Dp & Dl).
  destruct (token E fuel w) as [[tok|e] w1]; [|reflexivity]. simpl in Dh, Dp, Dl.
  unfold bind at 1, lift at 1.
  destruct (b64decode_value E tok) as [decoded|e]; [|reflexivity].
  unfold bind at 1. rewrite (length_cached fuel w1 n) by congruence.
  unfold bind at 1, lift at 1, bytes_of_value. cbn [as_int].
  destruct (bytes_of_ints [n]) as [count|e]; [|reflexivity].
  unfold bind at 1, lift at 1.
  destruct (bytes_of_ints (frame_payload frame)) as [colours|e]; [|reflexivity].
  unfold bind, get_self. rewrite Dh, Dp. reflexivity.
Qed.

Lemma socket_sendto_log data h p w :
  log (snd (socket_sendto E data h p w)) = log w ++ [Udp data h p].
Proof. unfold socket_sendto. destruct (sendto E (log w) data); reflexivity. Qed.

(** In any state [send_frame] either fails after some HTTP traffic, or gets
    as far as the socket, and then every channel fits in a byte. *)
Lemma send_frame_general fuel frame w :
  (is_ok (fst (send_frame E fuel frame w)) = false
   /\ grows_by session_event w (snd (send_frame E fuel frame w)))
  \/ (exists w1 data,
        grows_by session_event w w1 /\ Forall channels_8bit frame /\
        send_frame E fuel frame w =
          socket_sendto E data (host (self w1)) (rt_port (self w1)) w1).
Proof.
  remember (send_frame E fuel frame w) as res eqn:R.
  unfold send_frame in R. rewrite bind_run in R.
  pose proof (tidy_length_ fuel w) as G0.
  destruct (length_ E fuel w) as [[n|e] w0]; simpl in G0;
    [|subst res; left; auto].
  destruct (negb (int_eq (Z.of_nat (List.length frame)) n));
    [subst res; left; split; [reflexivity|exact G0]|].
  rewrite bind_run in R. pose proof (tidy_token fuel w0) as G1.
  destruct (token E fuel w0) as [[tok|e] w1]; simpl in G1;
    [|subst res; left; split; [reflexivity|eapply grows_by_trans; eauto]].
  assert (G01 : grows_by session_event w w1) by (eapply grows_by_trans; eauto).
  rewrite bind_run in R. unfold lift at 1 in R.
  destruct (b64decode_value E tok) as [decoded|e]; [|subst res; left; auto].
  rewrite bind_run in R. pose proof (tidy_length_ fuel w1) as G2.
  destruct (length_ E fuel w1) as [[n'|e] w2]; simpl in G2;
    [|subst res; left; split; [reflexivity|eapply grows_by_trans; eauto]].
  assert (G02 : grows_by session_event w w2) by (eapply grows_by_trans; eauto).
  rewrite bind_run in R. unfold lift at 1 in R.
  destruct (bytes_of_value n') as [count|e]; [|subst res; left; auto].
  rewrite bind_run in R. unfold lift at 1 in R.
  destruct (bytes_of_ints (frame_payload frame)) as [colours|e] eqn:B;
    [|subst res; left; auto].
  right. exists w2. eexists. split; [exact G02|]. split.
  - apply frame_payload_range. apply (bytes_of_ints_inv _ _ B).
  - rewrite R. reflexivity.
Qed.

End OperationFacts.

(** ** The realtime datagram *)

Lemma Z_of_byte_inj a b : Z_of_byte a = Z_of_byte b -> a = b.
Proof.
  unfold Z_of_byte. intros H. apply N2Z.inj in H.
  pose proof (Byte.of_to_N a) as A. rewrite H, Byte.of_to_N in A. congruence.
Qed.

Lemma map_Z_of_byte_inj l1 : forall l2,
  map Z_of_byte l1 = map Z_of_byte l2 -> l1 = l2.
Proof.
  induction l1 as [|a l1 IH]; intros [|b l2]; simpl; try discriminate; auto.
  intros [= H T]. f_equal; [apply Z_of_byte_inj; exact H|apply IH; exact T].
Qed.

Lemma skipn_past_header (decoded : list byte) count colours :
  skipn (2 + List.length decoded) (x01 :: decoded ++ count :: colours) = colours.
Proof.
  simpl. induction decoded as [|d decoded IH]; simpl; [reflexivity|exact IH].
Qed.

(** C3.  With the LED count [n] cached, a frame of [n] triples of 8-bit
    channels, and a token that decodes to [decoded]: when [n] fits in a
    byte, [send_frame] hands exactly one datagram to the socket, namely
    the byte 1, the decoded token, one byte holding [n], and the channels
    of the frame in LED order, R, G, B per LED.  These bytes are determined
    by token, count and frame; reading the payload part back gives the
    frame; the length is [1 + len(decoded) + 1 + 3 n].  When [n] does not
    fit in a byte no datagram is built at all. *)
Theorem send_frame_datagram (E : env) (fuel : nat) (w : world) (n : Z)
    (frame : TWINKLY_FRAME) (tok : string) (decoded : list byte) :
  _length (self w) = PyInt n ->
  Z.of_nat (List.length frame) = n ->
  Forall channels_8bit frame ->
  fst (token E fuel w) = Ok (PyStr tok) ->
  b64decode E tok = Some decoded ->
  let w1 := snd (token E fuel w) in
  let w' := snd (send_frame E fuel frame w) in
  (n <= 255 ->
     exists data,
       map Z_of_byte data =
         1 :: map Z_of_byte decoded ++ n :: frame_payload frame
       /\ (forall other,
             map Z_of_byte other =
               1 :: map Z_of_byte decoded ++ n :: frame_payload frame ->
             other = data)
       /\ send_frame E fuel frame w =
            socket_sendto E data (host (self w)) (rt_port (self w)) w1
       /\ log w' = log w1 ++ [Udp data (host (self w)) (rt_port (self w))]
       /\ datagrams (log w') =
            datagrams (log w) ++ [(data, host (self w), rt_port (self w))]
       /\ decode_payload (skipn (2 + List.length decoded) data) = Some frame
       /\ Z.of_nat (List.length data) =
            1 + Z.of_nat (List.length decoded) + 1 + 3 * n)
  /\ (255 < n -> datagrams (log w') = datagrams (log w)).
Proof.
  intros Hn Hlen Hch Htok Hdec w1 w'. subst w1 w'.
  pose proof (send_frame_cached E fuel frame w n Hn) as S.
  replace (negb (Z.of_nat (List.length frame) =? n)) with false in S
    by (symmetry; apply negb_false_iff; apply Z.eqb_eq; exact Hlen).
  pose proof (tidy_token E fuel w) as G.
  destruct (token E fuel w) as [[tk|e] w1]; simpl in Htok, G; [|discriminate].
  injection Htok as ->. cbn [b64decode_value] in S. rewrite Hdec in S.
  cbn [snd]. split.
  - intros Hfit.
    destruct (byte_of_Z_some n) as (cnt & Bc & Vc); [lia|].
    cbn [bytes_of_ints] in S. rewrite Bc in S.
    destruct (bytes_of_ints_ok (frame_payload frame)) as (colours & Bp & Vp);
      [apply frame_payload_range; exact Hch|].
    rewrite Bp in S.
    assert (Shape : ([x01] ++ decoded ++ [cnt]) ++ colours
                    = x01 :: decoded ++ cnt :: colours).
    { cbn [app]. rewrite <- app_assoc. reflexivity. }
    rewrite Shape in S. exists (x01 :: decoded ++ cnt :: colours).
    assert (Bytes : map Z_of_byte (x01 :: decoded ++ cnt :: colours) =
                    1 :: map Z_of_byte decoded ++ n :: frame_payload frame).
    { cbn [map]. rewrite map_app. cbn [map]. rewrite Vc, Vp. reflexivity. }
    split; [exact Bytes|]. split.
    { intros other Ho. apply map_Z_of_byte_inj. congruence. }
    split; [exact S|]. rewrite S, socket_sendto_log. split; [reflexivity|].
    split.
    { rewrite datagrams_app, (grows_by_datagrams w w1 G). reflexivity. }
    split.
    { rewrite skipn_past_header. apply decode_payload_round_trip. exact Vp. }
    cbn [List.length]. rewrite length_app. cbn [List.length].
    assert (Lc : List.length colours = (3 * List.length frame)%nat).
    { rewrite <- (length_map Z_of_byte), Vp. apply frame_payload_length. }
    rewrite Lc. lia.
  - intros Hbig. cbn [bytes_of_ints] in S.
    rewrite (byte_of_Z_none n) in S by lia. rewrite S.
    apply grows_by_datagrams. exact G.
Qed.

(** Two LEDs, red and green, on the example device, with the session of
    token [QUJD] (bytes 41 42 43) in place. *)
Lemma send_frame_datagram_witness :
  let E := lab (PyInt 2) 3600 200 [] in
  let w := with_length (PyInt 2) (renewed E (PyStr "QUJD") 3600 (boot 1000)) in
  let frame := [(255, 0, 0); (0, 255, 0)] in
  let data := [x01; x41; x42; x43; x02; xff; x00; x00; x00; xff; x00] in
  send_frame E 2 frame w =
    (Ok tt, {| self := self w; now := 1000;
               log := log w ++ [Udp data "lights" 7777] |})
  /\ decode_payload (skipn 5 data) = Some frame
  /\ Z.of_nat (List.length data) = 1 + 3 + 1 + 3 * 2.
Proof.
  intros E w frame data.
  destruct (send_frame_datagram E 2 w 2 frame "QUJD" [x41; x42; x43])
    as [Fit _].
  - reflexivity.
  - reflexivity.
  - repeat constructor; simpl; lia.
  - reflexivity.
  - reflexivity.
  - destruct (Fit ltac:(lia)) as (d & Bytes & Unique & Run & _ & _ & Back & Len).
    assert (D : data = d) by (apply Unique; reflexivity).
    rewrite <- D in Run, Back, Len.
    split; [rewrite Run; reflexivity|]. split; [exact Back|exact Len].
Defined.

(** C4.  With the LED count [n] cached, a frame of any other length, too
    short or too long, is refused with [ValueError("Invalid frame
    length")], and the world is left exactly as it was: nothing was sent,
    over UDP or over HTTP. *)
Theorem send_frame_rejects_wrong_length (E : env) (fuel : nat) (w : world)
    (n : Z) (frame : TWINKLY_FRAME) :
  _length (self w) = PyInt n ->
  Z.of_nat (List.length frame) <> n ->
  send_frame E fuel frame w = (Raise (ValueError "Invalid frame length"), w).
Proof.
  intros Hn Hlen. rewrite (send_frame_cached E fuel frame w n Hn).
  replace (negb (Z.of_nat (List.length frame) =? n)) with true; [reflexivity|].
  symmetry. apply negb_true_iff. apply Z.eqb_neq. exact Hlen.
Qed.

Lemma send_frame_rejects_wrong_length_witness :
  let E := lab (PyInt 3) 3600 200 [] in
  let w := with_length (PyInt 3) (boot 1000) in
  send_frame E 2 [(1, 2, 3); (4, 5, 6)] w =
    (Raise (ValueError "Invalid frame length"), w)
  /\ send_frame E 2 [(1, 2, 3); (4, 5, 6); (7, 8, 9); (10, 11, 12)] w =
       (Raise (ValueError "Invalid frame length"), w).
Proof.
  intros E w. split.
  - apply (send_frame_rejects_wrong_length E 2 w 3); [reflexivity|].
    simpl. lia.
  - apply (send_frame_rejects_wrong_length E 2 w 3); [reflexivity|].
    simpl. lia.
Defined.

(** C8.  With a cached LED count above 255, [send_frame] always ends in an
    exception and hands no datagram to the socket; for a frame of the
    right length and a token that decodes, the exception is the
    [ValueError] of [bytes([self.length])]: the count is neither wrapped
    nor cut. *)
Theorem send_frame_rejects_large_count (E : env) (fuel : nat) (w : world)
    (n : Z) (frame : TWINKLY_FRAME) :
  _length (self w) = PyInt n ->
  255 < n ->
  is_ok (fst (send_frame E fuel frame w)) = false
  /\ datagrams (log (snd (send_frame E fuel frame w))) = datagrams (log w)
  /\ (forall tok decoded,
        Z.of_nat (List.length frame) = n ->
        fst (token E fuel w) = Ok (PyStr tok) ->
        b64decode E tok = Some decoded ->
        send_frame E fuel frame w =
          (Raise (ValueError "bytes must be in range(0, 256)"),
           snd (token E fuel w))).
Proof.
  intros Hn Hbig. rewrite (send_frame_cached E fuel frame w n Hn).
  cbn [bytes_of_ints]. rewrite (byte_of_Z_none n) by lia.
  pose proof (tidy_token E fuel w) as G. apply grows_by_datagrams in G.
  destruct (negb (Z.of_nat (List.length frame) =? n)) eqn:L.
  - split; [reflexivity|]. split; [reflexivity|].
    intros tok decoded Hlen. apply negb_true_iff, Z.eqb_neq in L. contradiction.
  - destruct (token E fuel w) as [[tk|e] w1]; cbn [fst snd] in *.
    + destruct (b64decode_value E tk) as [d|e] eqn:D.
      * split; [reflexivity|]. split; [exact G|]. reflexivity.
      * split; [reflexivity|]. split; [exact G|].
        intros tok decoded _ [= ->] Hd. simpl in D. rewrite Hd in D.
        discriminate.
    + split; [reflexivity|]. split; [exact G|]. discriminate.
Qed.

Lemma send_frame_rejects_large_count_witness :
  let E := lab (PyInt 256) 3600 200 [] in
  let w := with_length (PyInt 256) (renewed E (PyStr "QUJD") 3600 (boot 1000)) in
  let frame := repeat (0, 0, 0) 256 in
  send_frame E 2 frame w =
    (Raise (ValueError "bytes must be in range(0, 256)"), w)
  /\ datagrams (log (snd (send_frame E 2 frame w))) = datagrams (log w).
Proof.
  intros E w frame.
  destruct (send_frame_rejects_large_count E 2 w 256 frame)
    as (_ & Quiet & Err); [reflexivity|lia|].
  split; [|exact Quiet].
  apply (Err "QUJD" [x41; x42; x43]); reflexivity.
Defined.

(** C10.  A frame with a channel outside 0..255 never reaches the socket:
    in any state [send_frame] ends in an exception and no datagram is
    sent.  With the count cached, the length right and the token decoded,
    that exception is the [ValueError] of [bytes(payload)].  Put the other
    way round: whenever a call hands a datagram to the socket, every
    channel of every triple of its frame lies in 0..255. *)
Theorem send_frame_rejects_wide_channels (E : env) (fuel : nat) (w : world)
    (frame : TWINKLY_FRAME) :
  (~ Forall channels_8bit frame ->
     is_ok (fst (send_frame E fuel frame w)) = false
     /\ datagrams (log (snd (send_frame E fuel frame w))) = datagrams (log w)
     /\ forall n tok decoded,
          _length (self w) = PyInt n ->
          Z.of_nat (List.length frame) = n ->
          n <= 255 ->
          fst (token E fuel w) = Ok (PyStr tok) ->
          b64decode E tok = Some decoded ->
          send_frame E fuel frame w =
            (Raise (ValueError "bytes must be in range(0, 256)"),
             snd (token E fuel w)))
  /\ (datagrams (log (snd (send_frame E fuel frame w))) <> datagrams (log w) ->
      Forall channels_8bit frame).
Proof.
  pose proof (send_frame_general E fuel frame w) as Shape. split.
  - intros Bad. destruct Shape as [[F G]|(w1 & data & _ & Good & _)];
      [|contradiction].
    split; [exact F|]. split; [apply grows_by_datagrams; exact G|].
    intros n tok decoded Hn Hlen Hfit Htok Hdec.
    rewrite (send_frame_cached E fuel frame w n Hn).
    replace (negb (Z.of_nat (List.length frame) =? n)) with false
      by (symmetry; apply negb_false_iff; apply Z.eqb_eq; exact Hlen).
    destruct (token E fuel w) as [[tk|e] w1]; simpl in Htok; [|discriminate].
    injection Htok as ->. cbn [b64decode_value snd]. rewrite Hdec.
    destruct (byte_of_Z_some n) as (cnt & Bc & _); [lia|].
    cbn [bytes_of_ints]. rewrite Bc.
    rewrite bytes_of_ints_bad; [reflexivity|].
    intros R. apply Bad. apply frame_payload_range. exact R.
  - intros Sent. destruct Shape as [[_ G]|(w1 & data & _ & Good & _)];
      [|exact Good].
    apply grows_by_datagrams in G. contradiction.
Qed.

Lemma send_frame_rejects_wide_channels_witness :
  let E := lab (PyInt 2) 3600 200 [] in
  let w := with_length (PyInt 2) (renewed E (PyStr "QUJD") 3600 (boot 1000)) in
  send_frame E 2 [(255, 0, 0); (0, 256, 0)] w =
    (Raise (ValueError "bytes must be in range(0, 256)"), w)
  /\ send_frame E 2 [(255, 0, 0); (0, -1, 0)] w =
    (Raise (ValueError "bytes must be in range(0, 256)"), w)
  /\ Forall channels_8bit [(255, 0, 0); (0, 255, 0)].
Proof.
  intros E w.
  assert (Wide : forall g, ~ 0 <= g < 256 ->
                 ~ Forall channels_8bit [(255, 0, 0); (0, g, 0)]).
  { intros g Hg F. inversion F as [|? ? _ F1]; subst.
    inversion F1 as [|? ? C _]; subst. simpl in C. tauto. }
  split; [|split].
  - destruct (send_frame_rejects_wide_channels E 2 w [(255, 0, 0); (0, 256, 0)])
      as [Bad _].
    destruct (Bad (Wide 256 ltac:(lia))) as (_ & _ & Err).
    apply (Err 2 "QUJD" [x41; x42; x43]); try reflexivity. lia.
  - destruct (send_frame_rejects_wide_channels E 2 w [(255, 0, 0); (0, -1, 0)])
      as [Bad _].
    destruct (Bad (Wide (-1) ltac:(lia))) as (_ & _ & Err).
    apply (Err 2 "QUJD" [x41; x42; x43]); try reflexivity. lia.
  - destruct (send_frame_rejects_wide_channels E 2 w [(255, 0, 0); (0, 255, 0)])
      as [_ Sent].
    apply Sent. discriminate.
Defined.

(** ** The command line *)

(** [int(len / 3 / n)] is the floor of [len / (3 n)] for a positive count. *)
Lemma frames_number_floor L N :
  0 <= L -> 0 < N -> frames_number L (PyInt N) = Ok (L / (3 * N)).
Proof.
  intros HL HN. unfold frames_number. cbn [as_int].
  destruct (Z.eqb_spec N 0) as [->|_]; [lia|]. f_equal.
  destruct N as [|p|p]; try lia.
  unfold Qtrunc, Qdiv, Qmult, Qinv, inject_Z, Qle_bool, Qfloor. cbn [Qnum Qden].
  replace (0 * Z.pos (1 * 3 * p) <=? L * 1 * 1 * 1) with true
    by (symmetry; apply Z.leb_le; lia).
  rewrite !Z.mul_1_r, Pos.mul_1_l, Pos2Z.inj_mul. reflexivity.
Qed.

(** On the example device any movie goes through the whole command,
    whatever its length, under the parser of [ttls.py] as under that of
    [ttls/cli.py]. *)
Lemma movie_run (fr : bool) (N : Z) (file : list byte) :
  0 < N ->
  let E := lab (PyInt N) 3600 200 file in
  let w1 := renewed E (PyStr "QUJD") 3600 (boot 1000) in
  main E fr (cli (Movie None (Some "movie.bin"))) 3 (boot 1000) =
    (Ok tt,
     {| self := self (with_length (PyInt N) w1);
        now := 1000;
        log := log w1 ++
          [Http Helper (authed GET "gestalt" NoBody) 1000 (Some 4600);
           Http Helper
             (authed POST "led/mode" (Json (PyDict [("mode", PyStr "movie")])))
             1000 (Some 4600);
           Http Helper
             (authed POST "led/movie/config"
                (Json (PyDict
                   [("frame_delay", PyInt 100);
                    ("leds_number", PyInt N);
                    ("frames_number",
                     PyInt (Z.of_nat (List.length file) / (3 * N)))])))
             1000 (Some 4600);
           Http Helper (authed POST "led/movie/full" (Octets file))
             1000 (Some 4600);
           Stdout false ok_body] |}).
Proof.
  intros HN E w1. subst E w1.
  pose proof (frames_number_floor (Z.of_nat (List.length file)) N
                ltac:(lia) HN) as Fr.
  destruct fr.
  all: cbv -[frames_number List.length Z.of_nat Z.div Z.mul].
  all: rewrite Fr.
  all: reflexivity.
Qed.

Lemma length_result (E : env) fuel w v :
  fst (length_ E fuel w) = Ok v -> _length (self (snd (length_ E fuel w))) = v.
Proof.
  unfold length_. rewrite bind_run. cbn [get_self].
  destruct (_length (self w)) eqn:L; try (cbn; intros [= <-]; exact L).
  rewrite bind_run. destruct (get_details E fuel w) as [[d|e] w0]; [|discriminate].
  rewrite bind_run. unfold lift at 1.
  destruct (subscript d "number_of_led") as [n|e]; [|discriminate].
  cbn. intros [= <-]. reflexivity.
Qed.

(** C6, as the code has it.  The movie branch never looks at the
    remainder.  Once the file is read and the LED count [N >= 1] is known,
    for a buffer of any length [L] it derives
    [frames_number = int(L / 3 / N)], the floor of [L / (3 N)] (that is
    [F] when [L = 3 N F], so 1 for [L = 3 N], and 0 for [L = 3 N - 1]),
    and goes on, whatever the remainder, to set the mode, post this
    configuration and upload the whole buffer.  No exception about the
    size is raised on the way. *)
Theorem movie_upload_takes_any_length (E : env) (fuel : nat)
    (args : list (string * value)) (path : string) (w : world)
    (file : list byte) (delay : value) (N : Z) :
  read_file E path = Ok file ->
  assoc "movie_delay" args = Some delay ->
  fst (length_ E fuel w) = Ok (PyInt N) ->
  0 < N ->
  let L := Z.of_nat (List.length file) in
  frames_number L (PyInt N) = Ok (L / (3 * N))
  /\ (forall F, L = 3 * N * F -> frames_number L (PyInt N) = Ok F)
  /\ (L = 3 * N - 1 -> frames_number L (PyInt N) = Ok 0)
  /\ movie_branch E fuel args (PyStr path) w =
       (mode_setter E fuel "movie" ;;
        set_movie_config E fuel
          (PyDict [("frame_delay", delay);
                   ("leds_number", PyInt N);
                   ("frames_number", PyInt (L / (3 * N)))]) ;;
        upload_movie E fuel file) (snd (length_ E fuel w)).
Proof.
  intros Hf Hd Hl HN L.
  assert (Fr : frames_number L (PyInt N) = Ok (L / (3 * N)))
    by (apply frames_number_floor; [unfold L|]; lia).
  split; [exact Fr|]. split; [|split].
  - intros F HF. rewrite Fr. f_equal. rewrite HF.
    replace (3 * N * F) with (F * (3 * N)) by ring.
    apply Z.div_mul. lia.
  - intros HL. rewrite Fr. f_equal. rewrite HL. apply Z.div_small. lia.
  - unfold movie_branch.
    rewrite bind_run. unfold lift at 1. rewrite Hf.
    rewrite bind_run. unfold getattr. rewrite Hd. cbn [ret].
    rewrite bind_run. pose proof (length_result E fuel w (PyInt N) Hl) as C.
    destruct (length_ E fuel w) as [[v|e] w0]; cbn [fst snd] in *; [|discriminate].
    injection Hl as ->.
    rewrite bind_run, (length_cached E fuel w0 N C).
    rewrite bind_run. unfold lift at 1. unfold L in Fr. rewrite Fr.
    reflexivity.
Qed.

(** Ten bytes for three LEDs on the example device, the session in place:
    one frame is announced and all ten bytes are uploaded. *)
Lemma movie_upload_takes_any_length_witness :
  let file := repeat x00 10 in
  let E := lab (PyInt 3) 3600 200 file in
  let w := renewed E (PyStr "QUJD") 3600 (boot 1000) in
  let args := [("movie_delay", PyInt 100)] in
  frames_number 10 (PyInt 3) = Ok 1
  /\ movie_branch E 2 args (PyStr "movie.bin") w =
       (Ok ok_body,
        {| self := self (with_length (PyInt 3) w); now := 1000;
           log := log w ++
             [Http Helper (authed GET "gestalt" NoBody) 1000 (Some 4600);
              Http Helper
                (authed POST "led/mode"
                   (Json (PyDict [("mode", PyStr "movie")])))
                1000 (Some 4600);
              Http Helper
                (authed POST "led/movie/config"
                   (Json (PyDict [("frame_delay", PyInt 100);
                                  ("leds_number", PyInt 3);
                                  ("frames_number", PyInt 1)])))
                1000 (Some 4600);
              Http Helper (authed POST "led/movie/full" (Octets file))
                1000 (Some 4600)] |}).
Proof.
  intros file E w args.
  destruct (movie_upload_takes_any_length E 2 args "movie.bin" w file
              (PyInt 100) 3) as (A & _ & _ & B).
  - reflexivity.
  - reflexivity.
  - reflexivity.
  - lia.
  - split; [exact A|]. rewrite B. reflexivity.
Defined.

(** C6 as stated fails: with three LEDs, a buffer of 10 bytes and one of
    [3 * 3 - 1 = 8] bytes are both uploaded in full and the command ends
    normally; no size error is raised. *)
Lemma movie_upload_not_rejected :
  let run file :=
    main (lab (PyInt 3) 3600 200 file) true
      (cli (Movie None (Some "movie.bin"))) 3 (boot 1000) in
  fst (run (repeat x00 10)) = Ok tt
  /\ In (Http Helper (authed POST "led/movie/full" (Octets (repeat x00 10)))
           1000 (Some 4600)) (log (snd (run (repeat x00 10))))
  /\ fst (run (repeat x00 8)) = Ok tt
  /\ In (Http Helper (authed POST "led/movie/full" (Octets (repeat x00 8)))
           1000 (Some 4600)) (log (snd (run (repeat x00 8)))).
Proof.
  intros run. split; [reflexivity|]. split; [vm_compute; tauto|].
  split; [reflexivity|]. vm_compute. tauto.
Qed.

(** Runs the pure steps of [main]: attribute reads and string tests. *)
Ltac run_pure :=
  repeat progress
    (rewrite ?bind_run;
     cbn [getattr assoc app String.eqb Ascii.eqb Bool.eqb ret raise
          str_eq is_none]).

Lemma main_token (E : env) (fr : bool) (h : string) (dbg js : bool)
    (fuel : nat) (w : world) :
  main E fr {| arg_host := h; arg_debug := dbg; arg_json := js;
               arg_command := Token |} fuel w =
    match __init__ E h true fuel w with
    | (Ok _, w1) => (Raise (PlainException "Unknown command"), w1)
    | (Raise e, w1) => (Raise e, w1)
    end.
Proof.
  unfold main. cbn [parse_args arg_command arg_host arg_debug arg_json].
  run_pure.
  destruct (__init__ E h true fuel w) as [[[]|e] w1]; [|reflexivity].
  unfold dispatch. run_pure. reflexivity.
Qed.

Lemma main_mqtt_json (E : env) (fr : bool) (h : string) (dbg js : bool)
    (fuel : nat) (w : world) (text : string) :
  main E fr {| arg_host := h; arg_debug := dbg; arg_json := js;
               arg_command := Mqtt (Some text) |} fuel w =
    match __init__ E h true fuel w with
    | (Ok _, w1) =>
        (Raise (match json_loads E text with
                | Some _ => AttributeError "mode"
                | None => JSONDecodeError
                end), w1)
    | (Raise e, w1) => (Raise e, w1)
    end.
Proof.
  unfold main.
  cbn [parse_args arg_command arg_host arg_debug arg_json opt_str].
  run_pure.
  destruct (__init__ E h true fuel w) as [[[]|e] w1]; [|reflexivity].
  unfold dispatch. run_pure.
  destruct (json_loads E text); run_pure; reflexivity.
Qed.

(** C9, where the code departs from it.  Once the constructor has
    returned, [token] runs into the final [else] and raises
    [Exception("Unknown command")], and [mqtt --json <text>] parses the
    text and then raises [AttributeError] on [args.mode], which the
    namespace of the [mqtt] subparser does not have; neither sends a
    request of its own nor prints anything.  When the constructor raises,
    that exception ends the command. *)
Theorem token_and_mqtt_json_never_dispatch (E : env) (fr : bool)
    (h : string) (dbg js : bool) (fuel : nat) (w : world) :
  let a c := {| arg_host := h; arg_debug := dbg; arg_json := js;
                arg_command := c |} in
  let w1 := snd (__init__ E h true fuel w) in
  match fst (__init__ E h true fuel w) with
  | Ok _ =>
      main E fr (a Token) fuel w =
        (Raise (PlainException "Unknown command"), w1)
      /\ forall text,
           main E fr (a (Mqtt (Some text))) fuel w =
             (Raise (match json_loads E text with
                     | Some _ => AttributeError "mode"
                     | None => JSONDecodeError
                     end), w1)
  | Raise e =>
      main E fr (a Token) fuel w = (Raise e, w1)
      /\ forall text, main E fr (a (Mqtt (Some text))) fuel w = (Raise e, w1)
  end.
Proof.
  intros a w1. subst a w1.
  pose proof (main_token E fr h dbg js fuel w) as T.
  pose proof (main_mqtt_json E fr h dbg js fuel w) as Q.
  destruct (__init__ E h true fuel w) as [[[]|e] w1]; cbn [fst snd];
    (split; [exact T|exact Q]).
Qed.

(** On the example device: [token] and [mqtt --json {}] end in an
    exception after the constructor's login and verify, with nothing
    printed and no request to [mqtt/config]; the other subcommands reach
    their operation and print its result. *)
Lemma cli_on_the_example_device :
  let E := lab (PyInt 3) 3600 200 [] in
  let w1 := renewed E (PyStr "QUJD") 3600 (boot 1000) in
  let ran c endpoint m payload :=
    main E true (cli c) 3 (boot 1000) =
      (Ok tt, {| self := self w1; now := 1000;
                 log := log w1 ++ [Http Helper (authed m endpoint payload)
                                     1000 (Some 4600);
                                   Stdout false ok_body] |}) in
  main E true (cli Token) 3 (boot 1000) =
    (Raise (PlainException "Unknown command"), w1)
  /\ main E true (cli (Mqtt (Some "{}"))) 3 (boot 1000) =
       (Raise (AttributeError "mode"), w1)
  /\ main E true (cli NoCommand) 3 (boot 1000) =
       (Raise (PlainException "Unknown command"), w1)
  /\ main E true (cli (Other "blink")) 3 (boot 1000) =
       (Raise (SystemExit 2), boot 1000)
  /\ ran Network "network/status" GET NoBody
  /\ ran Firmware "fw/version" GET NoBody
  /\ ran (Name None) "device_name" GET NoBody
  /\ ran (Name (Some "tree")) "device_name" POST
        (Json (PyDict [("name", PyStr "tree")]))
  /\ ran (Mode None) "led/mode" GET NoBody
  /\ ran (Mode (Some "demo")) "led/mode" POST
        (Json (PyDict [("mode", PyStr "demo")]))
  /\ ran (Mqtt None) "mqtt/config" GET NoBody.
Proof.
  intros E w1 ran. subst ran. cbv beta.
  destruct (token_and_mqtt_json_never_dispatch E true "lights" false false 3
              (boot 1000)) as [T Q].
  split; [exact T|]. split; [exact (Q "{}")|].
  repeat split; reflexivity.
Defined.

(** ** The whole client keeps the session fresh *)

Lemma tidy_weaken (P Q : event -> Prop) A (m : M A) :
  (forall ev, P ev -> Q ev) -> tidy P m -> tidy Q m.
Proof. intros PQ H w. eapply grows_by_weaken; [exact PQ|apply H]. Qed.

Section WholeClient.

Variable E : env.

Lemma tidy_fetch (send : M response) :
  tidy session_event send ->
  tidy session_event (r <- send ;; raise_for_status r ;; json r).
Proof. intros H. tidy_steps. Qed.

(** Every device operation talks HTTP only, and on the virtual clock
    every request it sends through a helper is fresh. *)
Lemma every_operation_sends_fresh fuel :
  tidy session_event (get_name E fuel)
  /\ (forall d, tidy session_event (set_name E fuel d))
  /\ tidy session_event (reset E fuel)
  /\ tidy session_event (get_network_status E fuel)
  /\ tidy session_event (get_firmware_version E fuel)
  /\ tidy session_event (get_details E fuel)
  /\ tidy session_event (get_mode E fuel)
  /\ (forall d, tidy session_event (set_mode E fuel d))
  /\ tidy session_event (get_mqtt E fuel)
  /\ (forall d, tidy session_event (set_mqtt E fuel d))
  /\ tidy session_event (get_movie_config E fuel)
  /\ (forall d, tidy session_event (set_movie_config E fuel d))
  /\ (forall movie, tidy session_event (upload_movie E fuel movie))
  /\ tidy session_event (logout E fuel)
  /\ tidy session_event (length_ E fuel)
  /\ tidy session_event (token E fuel).
Proof.
  repeat match goal with |- _ /\ _ => split end;
    intros; try (apply tidy_fetch; auto with tidy).
  - unfold logout. tidy_steps.
  - apply tidy_length_.
  - apply tidy_token.
Qed.

End WholeClient.

(** A device whose tokens are dead on arrival: each renewal logs in, finds
    the new token expired as well and renews again, until the recursion
    limit is hit.  No verify request is ever sent. *)
Lemma dead_token_recursion leds ttl verify_status file fuel : forall w,
  ttl <= 0 ->
  host (self w) = "lights" ->
  expired (self w) (now w) = true ->
  fst (ensure_token (lab leds ttl verify_status file) fuel w) = Raise RecursionError.
Proof.
  induction fuel as [|fuel IH]; intros w Dead Hh X; [reflexivity|].
  cbn [ensure_token]. rewrite X. rewrite bind_run.
  rewrite (login_granted (lab leds ttl verify_status file) w (PyStr "QUJD") ttl).
  - unfold verify_login_with, _post_with. rewrite !bind_run.
    specialize (IH {| self := installed (PyStr "QUJD") (now w + ttl) (self w);
                      now := now w;
                      log := log w ++ [login_event (lab leds ttl verify_status file) w] |}
                   Dead Hh).
    destruct (ensure_token _ fuel _) as [[[]|e] w2]; cbn [fst] in *.
    + discriminate IH. unfold expired. simpl. apply Z.leb_le. lia.
    + rewrite IH; [reflexivity|]. unfold expired. simpl. apply Z.leb_le. lia.
  - exists 200, (PyDict [("authentication_token", PyStr "QUJD");
                         ("authentication_token_expires_in", PyInt ttl);
                         ("code", PyInt 1000)]), (PyInt ttl).
    unfold login_request, base. rewrite Hh. repeat split.
Qed.

(** ** Operations under a session in force *)

Section ValidSession.

Variable E : env.

Lemma session_request_eq o m endpoint c w :
  session_request E o m endpoint c w =
    (match respond E (log w) (request_for (self w) m endpoint c) with
     | Fails e => Raise e
     | Answers r => Ok r
     end, after_request o m endpoint c w).
Proof.
  unfold session_request, request_for, after_request.
  destruct (respond E (log w) _); reflexivity.
Qed.

(** With the expiry ahead a helper is just its request. *)
Lemma helper_valid m endpoint c fuel w :
  expired (self w) (now w) = false ->
  (ensure_token E (S fuel) ;; session_request E Helper m endpoint c) w =
    session_request E Helper m endpoint c w.
Proof.
  intros V. rewrite bind_run, (ensure_token_valid E fuel w V). reflexivity.
Qed.

Lemma fetch_valid m endpoint c fuel w :
  expired (self w) (now w) = false ->
  (r <- (ensure_token E (S fuel) ;; session_request E Helper m endpoint c) ;;
   raise_for_status r ;; json r) w =
    (outcome_of_reply (respond E (log w) (request_for (self w) m endpoint c)),
     after_request Helper m endpoint c w).
Proof.
  intros V. rewrite bind_run, (helper_valid m endpoint c fuel w V).
  rewrite session_request_eq. unfold outcome_of_reply.
  destruct (respond E (log w) _) as [e|r]; [reflexivity|].
  rewrite bind_run. unfold raise_for_status, json, raise, ret.
  destruct ((400 <=? status_code r) && (status_code r <? 600)); [reflexivity|].
  destruct (json_body r); reflexivity.
Qed.

End ValidSession.

(** X1.  While the stored expiry is ahead, every device operation is one
    request and nothing else: no login, no verify, the verb, path and body
    below, and the outcome read off the reply (the transport's exception,
    [HTTPError] for a status in 400..599, [JSONDecodeError] for a body that
    is no JSON, the decoded body otherwise).  The object itself is left as
    it was. *)
Theorem operations_are_one_request (E : env) (fuel : nat) (w : world) :
  expired (self w) (now w) = false ->
  let run m endpoint c :=
    (outcome_of_reply (respond E (log w) (request_for (self w) m endpoint c)),
     after_request Helper m endpoint c w) in
  get_name E (S fuel) w = run GET "device_name" NoBody
  /\ (forall d, set_name E (S fuel) d w = run POST "device_name" (Json d))
  /\ reset E (S fuel) w = run GET "reset" NoBody
  /\ get_network_status E (S fuel) w = run GET "network/status" NoBody
  /\ get_firmware_version E (S fuel) w = run GET "fw/version" NoBody
  /\ get_details E (S fuel) w = run GET "gestalt" NoBody
  /\ get_mode E (S fuel) w = run GET "led/mode" NoBody
  /\ (forall d, set_mode E (S fuel) d w = run POST "led/mode" (Json d))
  /\ get_mqtt E (S fuel) w = run GET "mqtt/config" NoBody
  /\ (forall d, set_mqtt E (S fuel) d w = run POST "mqtt/config" (Json d))
  /\ get_movie_config E (S fuel) w = run GET "led/movie/config" NoBody
  /\ (forall d, set_movie_config E (S fuel) d w =
                  run POST "led/movie/config" (Json d))
  /\ (forall data, upload_movie E (S fuel) data w =
                     run POST "led/movie/full" (Octets data)).
Proof.
  intros V run. subst run.
  repeat match goal with |- _ /\ _ => split end;
    intros; apply fetch_valid; exact V.
Qed.

Lemma operations_are_one_request_witness :
  let E := lab (PyInt 10) 3600 200 [] in
  let w := renewed E (PyStr "QUJD") 3600 (boot 1000) in
  get_mode E 1 w =
    (Ok ok_body, after_request Helper GET "led/mode" NoBody w)
  /\ set_name E 1 (PyDict [("name", PyStr "tree")]) w =
       (Ok ok_body,
        after_request Helper POST "device_name"
          (Json (PyDict [("name", PyStr "tree")])) w).
Proof.
  intros E w.
  destruct (operations_are_one_request E 0 w eq_refl)
    as (_ & B & _ & _ & _ & _ & G & _).
  split; [exact G|exact (B (PyDict [("name", PyStr "tree")]))].
Defined.

(** X2.  [logout] under a session in force sends one POST to [logout].  If
    that request fails, by a transport error or an error status, [logout]
    raises and the token stays stored; only when it succeeds is [_token]
    set to [None], and nothing else of the object changes. *)
Theorem logout_clears_token_only_on_success (E : env) (fuel : nat) (w : world) :
  expired (self w) (now w) = false ->
  let w1 := after_request Helper POST "logout" (Json (PyDict [])) w in
  logout E (S fuel) w =
    match reply_error (respond E (log w)
            (request_for (self w) POST "logout" (Json (PyDict [])))) with
    | Some err => (Raise err, w1)
    | None => (Ok tt, with_self (token_cleared (self w)) w1)
    end.
Proof.
  intros V w1. subst w1. unfold logout, _post, _post_with.
  rewrite bind_run, (helper_valid E POST "logout" (Json (PyDict [])) fuel w V).
  rewrite session_request_eq. unfold reply_error.
  destruct (respond E (log w) _) as [e|r]; [reflexivity|].
  rewrite bind_run. unfold raise_for_status, raise, ret.
  destruct ((400 <=? status_code r) && (status_code r <? 600)); reflexivity.
Qed.

(** A logout the device turns down with status 500, and one it accepts. *)
Lemma logout_clears_token_only_on_success_witness :
  let E := lab_but "logout" (answer 500 ok_body) (PyInt 10) 3600 [] in
  let w := renewed E (PyStr "QUJD") 3600 (boot 1000) in
  let E' := lab (PyInt 10) 3600 200 [] in
  logout E 1 w =
    (Raise (HTTPError 500),
     after_request Helper POST "logout" (Json (PyDict [])) w)
  /\ _token (self (snd (logout E 1 w))) = PyStr "QUJD"
  /\ _token (self (snd (logout E' 1 w))) = PyNone.
Proof.
  intros E w E'.
  pose proof (logout_clears_token_only_on_success E 0 w eq_refl) as A.
  pose proof (logout_clears_token_only_on_success E' 0 w eq_refl) as B.
  split; [exact A|]. split; [rewrite A; reflexivity|rewrite B; reflexivity].
Defined.

(** ** Logins that go wrong *)

(** X3.  A login that is turned down, by the transport, by an error
    status, by a body that is no JSON, or by a body without
    [authentication_token], raises that exception before any attribute is
    written: token, header and expiry are as before and only the login
    request is logged.  [ensure_token] passes the exception on without
    sending a verify request. *)
Theorem login_refused_writes_nothing (E : env) (w : world) (err : exn) :
  login_refusal (respond E (log w) (login_request E w)) = Some err ->
  let w1 := {| self := self w; now := now w;
               log := log w ++ [login_event E w] |} in
  login E w = (Raise err, w1)
  /\ (expired (self w) (now w) = true ->
      forall fuel, ensure_token E (S fuel) w = (Raise err, w1)).
Proof.
  intros R w1. subst w1.
  assert (L : login E w = (Raise err, {| self := self w; now := now w;
                                         log := log w ++ [login_event E w] |})).
  { unfold login, bind, session_request. cbv zeta.
    change {| method := POST; url := _; auth_header := _; body := _ |}
      with (login_request E w).
    unfold login_refusal in R.
    destruct (respond E (log w) (login_request E w)) as [e|r].
    - injection R as ->. reflexivity.
    - unfold raise_for_status, json, raise, ret, lift.
      destruct ((400 <=? status_code r) && (status_code r <? 600)).
      + injection R as <-. reflexivity.
      + destruct (json_body r) as [v|].
        * destruct (subscript v "authentication_token") as [tok|e];
            [discriminate|]. injection R as ->. reflexivity.
        * injection R as <-. reflexivity. }
  split; [exact L|]. intros X fuel. cbn [ensure_token]. rewrite X.
  rewrite bind_run, L. reflexivity.
Qed.

Lemma login_refused_writes_nothing_witness :
  let w := boot 1000 in
  let busy := lab_but "login" (answer 503 ok_body) (PyInt 10) 3600 [] in
  let mute := lab_but "login" (answer 200 ok_body) (PyInt 10) 3600 [] in
  ensure_token busy 1 w =
    (Raise (HTTPError 503),
     {| self := self w; now := 1000; log := [login_event busy w] |})
  /\ ensure_token mute 1 w =
       (Raise (KeyError "authentication_token"),
        {| self := self w; now := 1000; log := [login_event mute w] |}).
Proof.
  intros w busy mute.
  destruct (login_refused_writes_nothing busy w (HTTPError 503) eq_refl)
    as [_ A].
  destruct (login_refused_writes_nothing mute w
              (KeyError "authentication_token") eq_refl) as [_ B].
  split; [exact (A eq_refl 0%nat)|exact (B eq_refl 0%nat)].
Defined.

(** X4.  A login reply that carries a token but no usable lifetime (the
    key [authentication_token_expires_in] is missing, or its value is no
    number) makes [login] raise after token and header are already
    replaced; the expiry is the old one, so a session that was expired
    stays expired. *)
Theorem login_without_lifetime_half_installs (E : env) (w : world) (st : Z)
    (r tok : value) (err : exn) :
  respond E (log w) (login_request E w) = answer st r ->
  (400 <=? st) && (st <? 600) = false ->
  subscript r "authentication_token" = Ok tok ->
  lifetime_error r = Some err ->
  login E w =
    (Raise err, {| self := half_installed tok (self w); now := now w;
                   log := log w ++ [login_event E w] |})
  /\ expired (self (snd (login E w))) (now w) = expired (self w) (now w).
Proof.
  intros R S Tk Lt.
  assert (L : login E w =
                (Raise err, {| self := half_installed tok (self w); now := now w;
                               log := log w ++ [login_event E w] |})).
  { unfold login, bind, session_request. cbv zeta.
    change {| method := POST; url := _; auth_header := _; body := _ |}
      with (login_request E w).
    rewrite R. unfold answer, raise_for_status. cbn [status_code json_body].
    rewrite S. unfold json, ret, lift. cbn [json_body]. rewrite Tk.
    unfold lifetime_error in Lt.
    destruct (subscript r "authentication_token_expires_in") as [v|e].
    - destruct (as_int v); [discriminate|]. injection Lt as <-. reflexivity.
    - injection Lt as ->. reflexivity. }
  split; [exact L|]. rewrite L. reflexivity.
Qed.

Lemma login_without_lifetime_half_installs_witness :
  let body := PyDict [("authentication_token", PyStr "QUJD")] in
  let E := lab_but "login" (answer 200 body) (PyInt 10) 3600 [] in
  let w := boot 1000 in
  login E w =
    (Raise (KeyError "authentication_token_expires_in"),
     {| self := half_installed (PyStr "QUJD") (self w); now := 1000;
        log := [login_event E w] |})
  /\ expired (self (snd (login E w))) 1000 = true.
Proof.
  intros body E w.
  destruct (login_without_lifetime_half_installs E w 200 body (PyStr "QUJD")
              (KeyError "authentication_token_expires_in")) as [A B];
    try reflexivity.
  split; [exact A|exact B].
Defined.

(** ** What the methods leave alone *)

Section Keeps.

Variable R : Twinkly -> Twinkly -> Prop.
Hypothesis R_refl : forall t, R t t.
Hypothesis R_trans : forall t1 t2 t3, R t1 t2 -> R t2 t3 -> R t1 t3.

Lemma keeps_ret A (a : A) : keeps R (ret a).
Proof. intros w. apply R_refl. Qed.

Lemma keeps_raise A e : keeps R (@raise A e).
Proof. intros w. apply R_refl. Qed.

Lemma keeps_lift A (o : outcome A) : keeps R (lift o).
Proof. intros w. apply R_refl. Qed.

Lemma keeps_get_self : keeps R get_self.
Proof. intros w. apply R_refl. Qed.

Lemma keeps_getattr args attr : keeps R (getattr args attr).
Proof.
  unfold getattr. destruct (assoc attr args); [apply keeps_ret|apply keeps_raise].
Qed.

Lemma keeps_emit ev : keeps R (emit ev).
Proof. intros w. apply R_refl. Qed.

Lemma keeps_raise_for_status r : keeps R (raise_for_status r).
Proof.
  unfold raise_for_status.
  destruct ((400 <=? status_code r) && (status_code r <? 600));
    [apply keeps_raise|apply keeps_ret].
Qed.

Lemma keeps_json r : keeps R (json r).
Proof.
  unfold json. destruct (json_body r); [apply keeps_ret|apply keeps_raise].
Qed.

Lemma keeps_session_request E o m endpoint c :
  keeps R (session_request E o m endpoint c).
Proof.
  intros w. rewrite session_request_eq. apply R_refl.
Qed.

Lemma keeps_socket_sendto E data h p : keeps R (socket_sendto E data h p).
Proof.
  intros w. unfold socket_sendto. destruct (sendto E (log w) data); apply R_refl.
Qed.

Lemma keeps_bind A B (m : M A) (k : A -> M B) :
  keeps R m -> (forall a, keeps R (k a)) -> keeps R (bind m k).
Proof.
  intros Hm Hk w. rewrite bind_run. specialize (Hm w).
  destruct (m w) as [[a|e] w1]; simpl in *; [|exact Hm].
  eapply R_trans; [exact Hm|apply Hk].
Qed.

End Keeps.

Lemma same_address_refl t : same_address t t.
Proof. split; reflexivity. Qed.

Lemma same_address_trans t1 t2 t3 :
  same_address t1 t2 -> same_address t2 t3 -> same_address t1 t3.
Proof. intros [A B] [A' B']. split; congruence. Qed.

Lemma same_device_address t t' : same_device t t' -> same_address t t'.
Proof. intros (A & B & _). split; assumption. Qed.

Create HintDb keeps.
#[local] Hint Resolve keeps_ret keeps_raise keeps_lift keeps_get_self
  keeps_getattr keeps_emit keeps_raise_for_status keeps_json
  keeps_session_request keeps_socket_sendto
  same_address_refl same_device_refl : keeps.

(** Splits a computation along its binds and conditionals. *)
Ltac keeps_steps :=
  repeat first
    [ solve [auto with keeps]
    | match goal with
      | |- keeps same_device (bind _ _) =>
          apply (keeps_bind same_device same_device_trans);
          [|intros]
      | |- keeps same_address (bind _ _) =>
          apply (keeps_bind same_address same_address_trans);
          [|intros]
      | |- keeps _ (if ?b then _ else _) => destruct b
      | |- keeps _ (match ?x with _ => _ end) => destruct x
      end ].

Section KeepsFacts.

Variable E : env.

Lemma keeps_ensure_token fuel : keeps same_device (ensure_token E fuel).
Proof. intros w. apply (ensure_token_post E fuel w). Qed.

Lemma keeps_set_token v : keeps same_device (set_token v).
Proof. intros w. repeat split. Qed.

Lemma keeps_set_length v : keeps same_address (set_length v).
Proof. intros w. repeat split. Qed.

Lemma keeps_weaken A (m : M A) : keeps same_device m -> keeps same_address m.
Proof. intros H w. apply same_device_address. apply H. Qed.

Lemma keeps_helper m endpoint c fuel :
  keeps same_device (ensure_token E fuel ;; session_request E Helper m endpoint c).
Proof. pose proof (keeps_ensure_token fuel). keeps_steps. Qed.

Lemma keeps_fetch m endpoint c fuel :
  keeps same_device
    (r <- (ensure_token E fuel ;; session_request E Helper m endpoint c) ;;
     raise_for_status r ;; json r).
Proof. pose proof (keeps_helper m endpoint c fuel). keeps_steps. Qed.

Lemma keeps_token fuel : keeps same_device (token E fuel).
Proof. pose proof (keeps_ensure_token fuel). unfold token. keeps_steps. Qed.

Lemma keeps_logout fuel : keeps same_device (logout E fuel).
Proof.
  pose proof (keeps_helper POST "logout" (Json (PyDict [])) fuel).
  pose proof (keeps_set_token PyNone).
  unfold logout, _post, _post_with. keeps_steps.
Qed.

Lemma keeps_length_ fuel : keeps same_address (length_ E fuel).
Proof.
  pose proof (keeps_weaken _ _ (keeps_fetch GET "gestalt" NoBody fuel)) as G.
  change (keeps same_address (get_details E fuel)) in G.
  pose proof keeps_set_length.
  unfold length_.
  apply (keeps_bind same_address same_address_trans);
    [auto with keeps|]. intros t.
  destruct (_length t); keeps_steps.
Qed.

End KeepsFacts.

(** ** The cached LED count *)

Lemma length_cached_value (E : env) fuel w :
  _length (self w) <> PyNone ->
  length_ E fuel w = (Ok (_length (self w)), w).
Proof.
  intros H. unfold length_. rewrite bind_run. cbn [get_self].
  destruct (_length (self w)); try reflexivity. contradiction.
Qed.

(** X6.  The property [length] asks the device at most once: when a read
    returns [v], [v] is what is stored afterwards, and unless [v] is
    [None] every later read returns it without any I/O.  A read that
    raises stores nothing. *)
Theorem length_is_fetched_once (E : env) (fuel : nat) (w : world) :
  let w' := snd (length_ E fuel w) in
  match fst (length_ E fuel w) with
  | Ok v =>
      _length (self w') = v
      /\ (v <> PyNone -> forall fuel', length_ E fuel' w' = (Ok v, w'))
  | Raise _ => _length (self w') = _length (self w)
  end.
Proof.
  intros w'. subst w'.
  pose proof (length_result E fuel w) as C.
  destruct (fst (length_ E fuel w)) as [v|e] eqn:F.
  - specialize (C v eq_refl). split; [exact C|]. intros NN fuel'.
    rewrite <- C at 1. apply length_cached_value. rewrite C. exact NN.
  - clear C. revert F. unfold length_. rewrite bind_run. cbn [get_self].
    destruct (_length (self w)) eqn:L; try discriminate.
    rewrite bind_run.
    pose proof (keeps_fetch E GET "gestalt" NoBody fuel w) as (_ & _ & K).
    change (_length (self (snd (get_details E fuel w))) = _length (self w)) in K.
    destruct (get_details E fuel w) as [[d|e'] w0]; cbn [fst snd] in *.
    + rewrite bind_run. unfold lift at 1.
      destruct (subscript d "number_of_led") as [n|e'']; [discriminate|].
      intros _. cbn. congruence.
    + intros _. cbn. congruence.
Qed.

(** A device without [number_of_led] in its details: the read raises and
    nothing is cached; the example device: the second read is free. *)
Lemma length_is_fetched_once_example :
  let E := lab (PyInt 10) 3600 200 [] in
  let E' := lab_but "gestalt" (answer 200 ok_body) (PyInt 10) 3600 [] in
  let w := renewed E (PyStr "QUJD") 3600 (boot 1000) in
  let w1 := snd (length_ E 1 w) in
  fst (length_ E 1 w) = Ok (PyInt 10)
  /\ length_ E 1 w1 = (Ok (PyInt 10), w1)
  /\ fst (length_ E' 1 w) = Raise (KeyError "number_of_led")
  /\ _length (self (snd (length_ E' 1 w))) = PyNone.
Proof.
  intros E E' w w1.
  pose proof (length_is_fetched_once E 1 w) as A.
  pose proof (length_is_fetched_once E' 1 w) as B.
  change (fst (length_ E 1 w)) with (@Ok value (PyInt 10)) in A.
  change (fst (length_ E' 1 w)) with (@Raise value (KeyError "number_of_led")) in B.
  cbv zeta in A, B. destruct A as [_ A].
  split; [reflexivity|]. split; [apply A; discriminate|].
  split; [reflexivity|exact B].
Defined.

(** ** More on [send_frame] *)

(** X7.  While no LED count is cached, [send_frame] asks the device for it
    before it looks at the frame: under a session in force, a frame of the
    wrong length is refused only after the GET to [gestalt] has been sent,
    and the count the device reported stays cached. *)
Theorem send_frame_fetches_count_first (E : env) (fuel : nat) (w : world)
    (frame : TWINKLY_FRAME) (d : value) (n : Z) :
  expired (self w) (now w) = false ->
  _length (self w) = PyNone ->
  outcome_of_reply
    (respond E (log w) (request_for (self w) GET "gestalt" NoBody)) = Ok d ->
  subscript d "number_of_led" = Ok (PyInt n) ->
  Z.of_nat (List.length frame) <> n ->
  send_frame E (S fuel) frame w =
    (Raise (ValueError "Invalid frame length"),
     with_length (PyInt n) (after_request Helper GET "gestalt" NoBody w)).
Proof.
  intros V L D K Hlen. unfold send_frame. rewrite bind_run.
  assert (Len : length_ E (S fuel) w =
                  (Ok (PyInt n),
                   with_length (PyInt n)
                     (after_request Helper GET "gestalt" NoBody w))).
  { unfold length_. rewrite bind_run. cbn [get_self]. rewrite L.
    rewrite bind_run. unfold get_details, _get, _get_with.
    rewrite (fetch_valid E GET "gestalt" NoBody fuel w V), D.
    rewrite bind_run. unfold lift at 1. rewrite K. reflexivity. }
  rewrite Len. unfold int_eq. cbn [as_int].
  replace (Z.of_nat (List.length frame) =? n) with false
    by (symmetry; apply Z.eqb_neq; exact Hlen).
  reflexivity.
Qed.

Lemma send_frame_fetches_count_first_witness :
  let E := lab (PyInt 3) 3600 200 [] in
  let w := renewed E (PyStr "QUJD") 3600 (boot 1000) in
  send_frame E 1 [(1, 2, 3)] w =
    (Raise (ValueError "Invalid frame length"),
     with_length (PyInt 3) (after_request Helper GET "gestalt" NoBody w)).
Proof.
  intros E w.
  apply (send_frame_fetches_count_first E 0 w [(1, 2, 3)]
           (PyDict [("number_of_led", PyInt 3); ("code", PyInt 1000)]) 3);
    try reflexivity.
  simpl. lia.
Defined.

(** X8.  After a [logout] that returned, [send_frame] cannot send: for a
    frame of the cached length it raises [TypeError], from
    [base64.b64decode(None)], and leaves the world as it is, until the
    stored expiry has passed. *)
Theorem send_frame_after_logout_raises (E : env) (fuel : nat) (w : world)
    (frame : TWINKLY_FRAME) (n : Z) :
  fst (logout E fuel w) = Ok tt ->
  let w' := snd (logout E fuel w) in
  _length (self w') = PyInt n ->
  Z.of_nat (List.length frame) = n ->
  forall f, send_frame E (S f) frame w' = (Raise TypeError, w').
Proof.
  intros H w' Hn Hlen f. destruct (logout_ok_state E fuel w H) as [T V].
  fold w' in T, V.
  rewrite (send_frame_cached E (S f) frame w' n Hn).
  replace (negb (Z.of_nat (List.length frame) =? n)) with false
    by (symmetry; apply negb_false_iff; apply Z.eqb_eq; exact Hlen).
  unfold token. rewrite bind_run, (ensure_token_valid E f w' V).
  cbn. rewrite T. reflexivity.
Qed.

Lemma send_frame_after_logout_raises_witness :
  let E := lab (PyInt 1) 3600 200 [] in
  let w := with_length (PyInt 1) (renewed E (PyStr "QUJD") 3600 (boot 1000)) in
  let w' := snd (logout E 1 w) in
  send_frame E 1 [(255, 0, 0)] w = (Ok tt, snd (send_frame E 1 [(255, 0, 0)] w))
  /\ send_frame E 1 [(255, 0, 0)] w' = (Raise TypeError, w').
Proof.
  intros E w w'. split; [reflexivity|].
  apply (send_frame_after_logout_raises E 1 w [(255, 0, 0)] 1); reflexivity.
Defined.

Section Address.

Variable E : env.

Lemma keeps_send_frame fuel frame : keeps same_address (send_frame E fuel frame).
Proof.
  pose proof (keeps_length_ E fuel).
  pose proof (keeps_weaken _ _ (keeps_token E fuel)).
  unfold send_frame. keeps_steps.
Qed.

(** [send_frame] either sends nothing, or gets as far as the socket with
    the object's own host and port. *)
Lemma send_frame_destination fuel frame w :
  datagrams (log (snd (send_frame E fuel frame w))) = datagrams (log w)
  \/ exists data,
       datagrams (log (snd (send_frame E fuel frame w))) =
         datagrams (log w) ++ [(data, host (self w), rt_port (self w))].
Proof.
  remember (send_frame E fuel frame w) as res eqn:R.
  unfold send_frame in R. rewrite bind_run in R.
  pose proof (tidy_length_ E fuel w) as G0.
  pose proof (keeps_length_ E fuel w) as K0.
  destruct (length_ E fuel w) as [[n|e] w0]; cbn [snd] in G0, K0;
    [|subst res; left; apply grows_by_datagrams; exact G0].
  destruct (negb (int_eq (Z.of_nat (List.length frame)) n));
    [subst res; left; apply grows_by_datagrams; exact G0|].
  rewrite bind_run in R. pose proof (tidy_token E fuel w0) as G1.
  pose proof (keeps_weaken _ _ (keeps_token E fuel) w0) as K1.
  assert (G01 : forall w1, grows_by session_event w0 w1 ->
                           grows_by session_event w w1)
    by (intros; eapply grows_by_trans; eauto).
  destruct (token E fuel w0) as [[tok|e] w1]; cbn [snd] in G1, K1;
    [|subst res; left; apply grows_by_datagrams; auto].
  rewrite bind_run in R. unfold lift at 1 in R.
  destruct (b64decode_value E tok) as [decoded|e];
    [|subst res; left; apply grows_by_datagrams; auto].
  rewrite bind_run in R. pose proof (tidy_length_ E fuel w1) as G2.
  pose proof (keeps_length_ E fuel w1) as K2.
  destruct (length_ E fuel w1) as [[n'|e] w2]; cbn [snd] in G2, K2.
  2:{ subst res; left; apply grows_by_datagrams.
      eapply grows_by_trans; [apply G01; exact G1|exact G2]. }
  assert (G02 : grows_by session_event w w2)
    by (eapply grows_by_trans; [apply G01; exact G1|exact G2]).
  rewrite bind_run in R. unfold lift at 1 in R.
  destruct (bytes_of_value n') as [count|e];
    [|subst res; left; apply grows_by_datagrams; exact G02].
  rewrite bind_run in R. unfold lift at 1 in R.
  destruct (bytes_of_ints (frame_payload frame)) as [colours|e];
    [|subst res; left; apply grows_by_datagrams; exact G02].
  rewrite bind_run in R. cbn [get_self] in R.
  right. eexists. rewrite R, socket_sendto_log, datagrams_app.
  rewrite (grows_by_datagrams w w2 G02).
  destruct K0 as [A0 B0]. destruct K1 as [A1 B1]. destruct K2 as [A2 B2].
  cbn [datagrams]. rewrite A2, A1, A0, B2, B1, B0. reflexivity.
Qed.

End Address.

(** X9.  Host and port are set by the constructor, the port to 7777, and
    no method writes them afterwards; one call of [send_frame] hands the
    socket at most one datagram, addressed to the object's own host and
    port. *)
Theorem datagrams_go_to_the_constructor_address (E : env) (fuel : nat) :
  (forall h login w,
      host (self (snd (__init__ E h login fuel w))) = h
      /\ rt_port (self (snd (__init__ E h login fuel w))) = 7777)
  /\ keeps same_address (logout E fuel)
  /\ keeps same_address (token E fuel)
  /\ keeps same_address (length_ E fuel)
  /\ (forall endpoint c, keeps same_address (_post E fuel endpoint c))
  /\ (forall endpoint, keeps same_address (_get E fuel endpoint))
  /\ keeps same_address (get_details E fuel)
  /\ (forall d, keeps same_address (set_mode E fuel d))
  /\ (forall data, keeps same_address (upload_movie E fuel data))
  /\ (forall frame, keeps same_address (send_frame E fuel frame))
  /\ (forall frame w,
        datagrams (log (snd (send_frame E fuel frame w))) = datagrams (log w)
        \/ exists data,
             datagrams (log (snd (send_frame E fuel frame w))) =
               datagrams (log w) ++ [(data, host (self w), rt_port (self w))]).
Proof.
  split.
  { intros h login w. unfold __init__. rewrite bind_run. cbn [set_self].
    destruct login; [|split; reflexivity].
    destruct (ensure_token_post E fuel
                {| self := unborn h; now := now w; log := log w |})
      as (_ & (A & B & _) & _).
    split; [exact A|exact B]. }
  split; [apply keeps_weaken, keeps_logout|].
  split; [apply keeps_weaken, keeps_token|].
  split; [apply keeps_length_|].
  split; [intros; apply keeps_weaken; apply keeps_helper|].
  split; [intros; apply keeps_weaken; apply keeps_helper|].
  split; [apply keeps_weaken; apply keeps_fetch|].
  split; [intros; apply keeps_weaken; apply keeps_fetch|].
  split; [intros; apply keeps_weaken; apply keeps_fetch|].
  split; [intros; apply keeps_send_frame|].
  intros frame w. apply send_frame_destination.
Qed.

(** ** More on the command line *)

Lemma parse_args_globals fr a args :
  parse_args fr a = Some args ->
  assoc "debug" args = Some (PyBool (arg_debug a))
  /\ assoc "host" args = Some (PyStr (arg_host a))
  /\ assoc "json" args = Some (PyBool (arg_json a)).
Proof.
  unfold parse_args.
  destruct (arg_command a) as [| | | | |n|[m|]|j|d [f|]|x];
    try (intros [= <-]; repeat split; reflexivity); try discriminate.
  - destruct (existsb (String.eqb m) TWINKLY_MODES); [|discriminate].
    intros [= <-]. repeat split; reflexivity.
  - destruct fr; [discriminate|]. intros [= <-]. repeat split; reflexivity.
Qed.

(** [main] once the command line is parsed: the constructor, the
    dispatch, the one line of output. *)
Lemma main_run (E : env) fr a fuel w args :
  parse_args fr a = Some args ->
  main E fr a fuel w =
    match __init__ E (arg_host a) true fuel w with
    | (Raise e, w1) => (Raise e, w1)
    | (Ok _, w1) =>
        match dispatch E fuel args w1 with
        | (Raise e, w2) => (Raise e, w2)
        | (Ok None, w2) => (Raise (UnboundLocalError "res"), w2)
        | (Ok (Some v), w2) => emit (Stdout (arg_json a) v) w2
        end
    end.
Proof.
  intros P. destruct (parse_args_globals fr a args P) as (D & H & J).
  unfold main. rewrite P. unfold getattr. rewrite D, H, J.
  repeat progress (rewrite ?bind_run; cbn [ret]).
  destruct (__init__ E (arg_host a) true fuel w) as [[[]|e] w1]; [|reflexivity].
  repeat progress (rewrite ?bind_run; cbn [ret]).
  destruct (dispatch E fuel args w1) as [[[v|]|e] w2];
    repeat progress (rewrite ?bind_run; cbn [ret truthy]); reflexivity.
Qed.

Section MainFacts.

Variable E : env.

Lemma tidy_init h fuel : tidy session_event (__init__ E h true fuel).
Proof. unfold __init__. tidy_steps. Qed.

Lemma tidy_dispatch fuel args : tidy session_event (dispatch E fuel args).
Proof.
  pose proof (every_operation_sends_fresh E fuel)
    as (O1 & O2 & _ & O4 & O5 & O6 & O7 & O8 & O9 & O10 & O11 & O12 & O13 & _ & O15 & _).
  assert (Mv : forall p, tidy session_event (movie_branch E fuel args p)).
  { intros p. unfold movie_branch, mode_setter. tidy_steps. }
  unfold dispatch. tidy_steps.
Qed.

End MainFacts.

(** X10.  Once the command line is accepted, [main] prints at most
    once, and only when it ends normally: if it returns, its last event
    is the one line of output, compact exactly when [--json] was given,
    and everything before is HTTP traffic; if it raises, nothing was
    printed.  No command sends a datagram. *)
Theorem main_prints_once_on_success (E : env) (fr : bool) (a : argv)
    (fuel : nat) (w : world) (args : list (string * value)) :
  parse_args fr a = Some args ->
  exists evs,
    log (snd (main E fr a fuel w)) = log w ++ evs
    /\ match fst (main E fr a fuel w) with
       | Ok _ => exists pre v,
                   evs = pre ++ [Stdout (arg_json a) v]
                   /\ Forall (fun ev => is_http ev = true) pre
       | Raise _ => Forall (fun ev => is_http ev = true) evs
       end.
Proof.
  intros P. rewrite (main_run E fr a fuel w args P).
  assert (W : forall evs, Forall session_event evs ->
                          Forall (fun ev => is_http ev = true) evs).
  { intros evs F. eapply Forall_impl; [|exact F]. intros ev [H _]. exact H. }
  destruct (tidy_init E (arg_host a) fuel w) as (_ & e1 & L1 & F1).
  destruct (__init__ E (arg_host a) true fuel w) as [[[]|e] w1];
    cbn [snd] in L1; [|exists e1; split; [exact L1|exact (W _ F1)]].
  destruct (tidy_dispatch E fuel args w1) as (_ & e2 & L2 & F2).
  assert (F12 : Forall (fun ev => is_http ev = true) (e1 ++ e2))
    by (apply W, Forall_app; auto).
  destruct (dispatch E fuel args w1) as [[[v|]|e] w2]; cbn [snd] in L2.
  - exists ((e1 ++ e2) ++ [Stdout (arg_json a) v]). cbn.
    split; [rewrite L2, L1, !app_assoc; reflexivity|].
    exists (e1 ++ e2), v. split; [reflexivity|exact F12].
  - exists (e1 ++ e2). cbn.
    split; [rewrite L2, L1, app_assoc; reflexivity|exact F12].
  - exists (e1 ++ e2). cbn.
    split; [rewrite L2, L1, app_assoc; reflexivity|exact F12].
Qed.

(** [mode --mode off --json] on the example device: login, verify, the
    mode request, then the one line of output. *)
Lemma main_prints_once_on_success_witness :
  let E := lab (PyInt 10) 3600 200 [] in
  let a := command_line "lights" false true (Mode (Some "off")) in
  fst (main E true a 2 (boot 1000)) = Ok tt
  /\ exists evs,
       log (snd (main E true a 2 (boot 1000))) = evs
       /\ exists pre v,
            evs = pre ++ [Stdout true v]
            /\ Forall (fun ev => is_http ev = true) pre.
Proof.
  intros E a. split; [reflexivity|].
  destruct (main_prints_once_on_success E true a 2 (boot 1000) _ eq_refl)
    as (evs & L & H).
  exists evs. split; [exact L|exact H].
Defined.

(** X11.  Whatever the command, [main] builds the client first, and the
    constructor logs in: once the command line is accepted, the first
    request on the wire is the login, sent before the command is looked
    at, also for a command that ends in "Unknown command". *)
Theorem main_logs_in_first (E : env) (fr : bool) (a : argv) (fuel : nat)
    (w : world) (args : list (string * value)) :
  parse_args fr a = Some args ->
  exists rest,
    log (snd (main E fr a (S fuel) w)) =
      log w ++ login_event E (with_self (unborn (arg_host a)) w) :: rest.
Proof.
  intros P. rewrite (main_run E fr a (S fuel) w args P).
  assert (I : exists r1,
             log (snd (__init__ E (arg_host a) true (S fuel) w)) =
               log w ++ login_event E (with_self (unborn (arg_host a)) w) :: r1).
  { unfold __init__. rewrite bind_run. cbn [set_self].
    apply (renewal_starts_with_login E fuel
             (with_self (unborn (arg_host a)) w)). reflexivity. }
  destruct I as (r1 & L1).
  destruct (__init__ E (arg_host a) true (S fuel) w) as [[[]|e] w1];
    cbn [snd] in L1; [|exists r1; exact L1].
  destruct (tidy_dispatch E (S fuel) args w1) as (_ & e2 & L2 & _).
  destruct (dispatch E (S fuel) args w1) as [[[v|]|e] w2]; cbn [snd] in L2.
  - exists (r1 ++ e2 ++ [Stdout (arg_json a) v]). cbn.
    rewrite L2, L1, <- !app_assoc. reflexivity.
  - exists (r1 ++ e2). cbn. rewrite L2, L1, <- !app_assoc. reflexivity.
  - exists (r1 ++ e2). cbn. rewrite L2, L1, <- !app_assoc. reflexivity.
Qed.

Lemma main_logs_in_first_witness :
  let E := lab (PyInt 10) 3600 200 [] in
  exists rest,
    log (snd (main E true (cli NoCommand) 1 (boot 1000))) =
      login_event E (boot 1000) :: rest.
Proof.
  intros E.
  exact (main_logs_in_first E true (cli NoCommand) 0 (boot 1000) _ eq_refl).
Defined.

(** [dispatch] on the namespace of one subcommand. *)
Ltac run_dispatch :=
  unfold dispatch; run_pure; cbn [truthy negb]; run_pure; reflexivity.

(** X12.  The subcommands that work.  Each builds the client, calls one
    operation and prints what it returned: [network], [firmware],
    [details], [name] and [mode] without their option read, with it they
    post [{"name": n}] and [{"mode": m}], and [mqtt] without [--json]
    reads the MQTT configuration. *)
Theorem main_dispatches (E : env) (fr : bool) (h : string) (dbg js : bool)
    (fuel : nat) (w : world) :
  let run c := main E fr (command_line h dbg js c) fuel w in
  let via op :=
    (__init__ E h true fuel ;; res <- op ;; emit (Stdout js res)) w in
  run Network = via (get_network_status E fuel)
  /\ run Firmware = via (get_firmware_version E fuel)
  /\ run Details = via (get_details E fuel)
  /\ run (Name None) = via (get_name E fuel)
  /\ (forall n,
        run (Name (Some n)) = via (set_name E fuel (PyDict [("name", PyStr n)])))
  /\ run (Mode None) = via (get_mode E fuel)
  /\ (forall m, In m TWINKLY_MODES ->
        run (Mode (Some m)) = via (set_mode E fuel (PyDict [("mode", PyStr m)])))
  /\ run (Mqtt None) = via (get_mqtt E fuel).
Proof.
  intros run via. subst run via. cbv beta.
  assert (Go : forall c args op,
             parse_args fr (command_line h dbg js c) = Some args ->
             (forall w1, dispatch E fuel args w1 =
                           (res <- op ;; ret (Some res)) w1) ->
             main E fr (command_line h dbg js c) fuel w =
               (__init__ E h true fuel ;; res <- op ;; emit (Stdout js res)) w).
  { intros c args op P D. rewrite (main_run E fr _ fuel w args P).
    cbn [arg_host arg_json command_line]. rewrite bind_run.
    destruct (__init__ E h true fuel w) as [[[]|e] w1]; [|reflexivity].
    rewrite D, !bind_run. destruct (op w1) as [[v|e] w2]; reflexivity. }
  repeat match goal with |- _ /\ _ => split end.
  - eapply Go; [reflexivity|]. intros w1. run_dispatch.
  - eapply Go; [reflexivity|]. intros w1. run_dispatch.
  - eapply Go; [reflexivity|]. intros w1. run_dispatch.
  - eapply Go; [reflexivity|]. intros w1. run_dispatch.
  - intros n. eapply Go; [reflexivity|]. intros w1. run_dispatch.
  - eapply Go; [reflexivity|]. intros w1. run_dispatch.
  - intros m Hm.
    assert (P : parse_args fr (command_line h dbg js (Mode (Some m))) =
                Some [("host", PyStr h); ("debug", PyBool dbg);
                      ("json", PyBool js); ("command", PyStr "mode");
                      ("mode", PyStr m)]).
    { simpl in Hm. decompose [or] Hm; subst; try contradiction; reflexivity. }
    eapply Go; [exact P|]. intros w1. run_dispatch.
  - eapply Go; [reflexivity|]. intros w1. run_dispatch.
Qed.

(** X13.  [movie] uploads only when a file name is given and is not
    empty.  With the empty name, under either parser, and with no
    [--file] at all under the parser of [ttls/cli.py], the command reads
    the movie configuration and prints it.  Under the parser of [ttls.py]
    a missing [--file] ends the command with exit status 2 before the
    client is built. *)
Theorem movie_without_file_reads_config (E : env) (fr : bool) (h : string)
    (dbg js : bool) (d : option Z) (fuel : nat) (w : world) :
  let read :=
    (__init__ E h true fuel ;;
     res <- get_movie_config E fuel ;; emit (Stdout js res)) w in
  main E fr (command_line h dbg js (Movie d (Some ""))) fuel w = read
  /\ main E false (command_line h dbg js (Movie d None)) fuel w = read
  /\ main E true (command_line h dbg js (Movie d None)) fuel w =
       (Raise (SystemExit 2), w).
Proof.
  intros read. subst read.
  assert (Go : forall fr' c args,
             parse_args fr' (command_line h dbg js c) = Some args ->
             (forall w1, dispatch E fuel args w1 =
                           (res <- get_movie_config E fuel ;; ret (Some res)) w1) ->
             main E fr' (command_line h dbg js c) fuel w =
               (__init__ E h true fuel ;;
                res <- get_movie_config E fuel ;; emit (Stdout js res)) w).
  { intros fr' c args P D. rewrite (main_run E fr' _ fuel w args P).
    cbn [arg_host arg_json command_line]. rewrite bind_run.
    destruct (__init__ E h true fuel w) as [[[]|e] w1]; [|reflexivity].
    rewrite D, !bind_run.
    destruct (get_movie_config E fuel w1) as [[v|e] w2]; reflexivity. }
  split; [|split].
  - eapply Go; [reflexivity|]. intros w1. run_dispatch.
  - eapply Go; [reflexivity|]. intros w1. run_dispatch.
  - reflexivity.
Qed.

(** X14.  A device that reports zero LEDs, or a count that is no number,
    makes the upload branch raise when it divides ([ZeroDivisionError],
    [TypeError]), right after the count is read: the mode is not touched,
    no configuration is posted and nothing is uploaded. *)
Theorem movie_branch_stops_on_bad_count (E : env) (fuel : nat)
    (args : list (string * value)) (path : string) (w : world)
    (file : list byte) (delay v : value) :
  read_file E path = Ok file ->
  assoc "movie_delay" args = Some delay ->
  fst (length_ E fuel w) = Ok v ->
  v <> PyNone ->
  (as_int v = Some 0 ->
     movie_branch E fuel args (PyStr path) w =
       (Raise ZeroDivisionError, snd (length_ E fuel w)))
  /\ (as_int v = None ->
     movie_branch E fuel args (PyStr path) w =
       (Raise TypeError, snd (length_ E fuel w))).
Proof.
  intros Hf Hd Hl NN.
  assert (Run : movie_branch E fuel args (PyStr path) w =
                  match frames_number (Z.of_nat (List.length file)) v with
                  | Ok frames =>
                      (mode_setter E fuel "movie" ;;
                       set_movie_config E fuel
                         (PyDict [("frame_delay", delay);
                                  ("leds_number", v);
                                  ("frames_number", PyInt frames)]) ;;
                       upload_movie E fuel file) (snd (length_ E fuel w))
                  | Raise e => (Raise e, snd (length_ E fuel w))
                  end).
  { unfold movie_branch.
    rewrite bind_run. unfold lift at 1. rewrite Hf.
    rewrite bind_run. unfold getattr. rewrite Hd. cbn [ret].
    rewrite bind_run. pose proof (length_result E fuel w v Hl) as C.
    destruct (length_ E fuel w) as [[v'|e] w0]; cbn [fst snd] in *;
      [|discriminate].
    injection Hl as ->.
    rewrite bind_run, (length_cached_value E fuel w0) by (rewrite C; exact NN).
    rewrite C. rewrite bind_run. unfold lift at 1.
    destruct (frames_number (Z.of_nat (List.length file)) v); reflexivity. }
  split; intros A; rewrite Run; unfold frames_number; rewrite A; reflexivity.
Qed.

Lemma movie_branch_stops_on_bad_count_witness :
  let w := renewed (lab (PyInt 0) 3600 200 [x00; x00; x00]) (PyStr "QUJD") 3600
             (boot 1000) in
  let args := [("movie_delay", PyInt 100)] in
  movie_branch (lab (PyInt 0) 3600 200 [x00; x00; x00]) 1 args
    (PyStr "movie.bin") w =
    (Raise ZeroDivisionError,
     with_length (PyInt 0) (after_request Helper GET "gestalt" NoBody w))
  /\ movie_branch (lab (PyStr "ten") 3600 200 [x00; x00; x00]) 1 args
       (PyStr "movie.bin") w =
       (Raise TypeError,
        with_length (PyStr "ten") (after_request Helper GET "gestalt" NoBody w)).
Proof.
  intros w args. split.
  - exact (proj1 (movie_branch_stops_on_bad_count
                    (lab (PyInt 0) 3600 200 [x00; x00; x00]) 1 args "movie.bin"
                    w [x00; x00; x00] (PyInt 100) (PyInt 0)
                    eq_refl eq_refl eq_refl ltac:(discriminate)) eq_refl).
  - exact (proj2 (movie_branch_stops_on_bad_count
                    (lab (PyStr "ten") 3600 200 [x00; x00; x00]) 1 args
                    "movie.bin" w [x00; x00; x00] (PyInt 100) (PyStr "ten")
                    eq_refl eq_refl eq_refl ltac:(discriminate)) eq_refl).
Defined.

(** ** Tokens that are dead on arrival, and the lazy constructor *)

(** X15.  A login that grants a lifetime of zero or less is never followed
    by its verify request: the check inside [verify_login]'s own [_post]
    finds the new token expired and logs in again.  With one level of
    recursion left the call ends in [RecursionError]; with more, the next
    request on the wire is a second login. *)
Theorem dead_token_is_never_verified (E : env) (fuel : nat) (w : world)
    (tok : value) (ttl : Z) :
  expired (self w) (now w) = true ->
  grants (respond E (log w) (login_request E w)) tok ttl ->
  ttl <= 0 ->
  let w1 := {| self := installed tok (now w + ttl) (self w); now := now w;
               log := log w ++ [login_event E w] |} in
  ensure_token E 1 w = (Raise RecursionError, w1)
  /\ exists rest,
       log (snd (ensure_token E (S (S fuel)) w)) =
         log w ++ login_event E w :: login_event E w1 :: rest.
Proof.
  intros X G Dead w1.
  assert (Step : forall k,
             ensure_token E (S k) w =
               verify_login_with E (ensure_token E k) w1).
  { intros k. cbn [ensure_token]. rewrite X, bind_run.
    rewrite (login_granted E w tok ttl G). reflexivity. }
  split.
  - rewrite Step. reflexivity.
  - rewrite Step. unfold verify_login_with, _post_with. rewrite !bind_run.
    assert (X1 : expired (self w1) (now w1) = true).
    { unfold expired. simpl. apply Z.leb_le. lia. }
    destruct (renewal_starts_with_login E fuel w1 X1) as (r1 & L1).
    destruct (ensure_token E (S fuel) w1) as [[[]|e] w2]; cbn [snd] in L1.
    + rewrite session_request_eq.
      destruct (respond E (log w2) _) as [e|r].
      * eexists. cbn [snd after_request log]. rewrite L1. subst w1.
        cbn [log]. rewrite <- !app_assoc. reflexivity.
      * unfold raise_for_status, raise, ret.
        destruct ((400 <=? status_code r) && (status_code r <? 600));
          eexists; cbn [snd after_request log]; rewrite L1; subst w1;
          cbn [log]; rewrite <- !app_assoc; reflexivity.
    + exists r1. cbn [snd]. rewrite L1. subst w1. cbn [log].
      rewrite <- app_assoc. reflexivity.
Qed.

Lemma dead_token_is_never_verified_witness :
  let E := lab (PyInt 10) 0 200 [] in
  let w1 := {| self := installed (PyStr "QUJD") 1000 (self (boot 1000));
               now := 1000; log := [login_event E (boot 1000)] |} in
  ensure_token E 1 (boot 1000) = (Raise RecursionError, w1)
  /\ exists rest,
       log (snd (ensure_token E 3 (boot 1000))) =
         login_event E (boot 1000) :: login_event E w1 :: rest.
Proof.
  intros E w1.
  assert (G : grants (respond E (log (boot 1000)) (login_request E (boot 1000)))
                     (PyStr "QUJD") 0).
  { exists 200, (PyDict [("authentication_token", PyStr "QUJD");
                         ("authentication_token_expires_in", PyInt 0);
                         ("code", PyInt 1000)]), (PyInt 0).
    repeat split. }
  exact (dead_token_is_never_verified E 1 (boot 1000) (PyStr "QUJD") 0
           eq_refl G ltac:(lia)).
Defined.

(** X16.  [Twinkly(host, login=False)] does no I/O at all; the login is
    left to the first operation, whose first request is the login. *)
Theorem constructor_without_login_is_lazy (E : env) (h : string)
    (fuel : nat) (w : world) :
  __init__ E h false fuel w = (Ok tt, with_self (unborn h) w)
  /\ forall f endpoint,
       exists rest,
         log (snd (_get E (S f) endpoint (with_self (unborn h) w))) =
           log w ++ login_event E (with_self (unborn h) w) :: rest.
Proof.
  split; [reflexivity|]. intros f endpoint.
  destruct (renewal_starts_with_login E f (with_self (unborn h) w) eq_refl)
    as (r1 & L1).
  unfold _get, _get_with. rewrite bind_run.
  destruct (ensure_token E (S f) (with_self (unborn h) w)) as [[[]|e] w1];
    cbn [snd] in L1.
  - rewrite session_request_eq. eexists. cbn [snd after_request log].
    rewrite L1. cbn [log with_self]. rewrite <- app_assoc. reflexivity.
  - exists r1. exact L1.
Qed.

(** ** The properties and the mode shortcuts *)

(** X17.  Under a session in force the properties [name], [mode] and
    [version] are one GET each and hand out one entry of the reply; a
    reply without that entry raises [KeyError].  The shortcuts [realtime],
    [movie], [off] and [demo] post [{"mode": ...}] to [led/mode]; they
    return nothing, yet they raise whatever the POST raises, also when the
    accepted reply has no JSON body. *)
Theorem properties_and_shortcuts (E : env) (fuel : nat) (w : world) :
  expired (self w) (now w) = false ->
  let got endpoint :=
    outcome_of_reply (respond E (log w) (request_for (self w) GET endpoint NoBody)) in
  let read endpoint key :=
    (match got endpoint with
     | Ok d => subscript d key
     | Raise e => Raise e
     end, after_request Helper GET endpoint NoBody w) in
  let set m :=
    let c := Json (PyDict [("mode", PyStr m)]) in
    (match outcome_of_reply
             (respond E (log w) (request_for (self w) POST "led/mode" c)) with
     | Ok _ => Ok tt
     | Raise e => Raise e
     end, after_request Helper POST "led/mode" c w) in
  name_getter E (S fuel) w = read "device_name" "name"
  /\ mode_getter E (S fuel) w = read "led/mode" "mode"
  /\ version E (S fuel) w = read "fw/version" "version"
  /\ realtime E (S fuel) w = set "rt"
  /\ movie E (S fuel) w = set "movie"
  /\ off E (S fuel) w = set "off"
  /\ demo E (S fuel) w = set "demo".
Proof.
  intros V got read set. subst got read set. cbv beta zeta.
  assert (Rd : forall endpoint key,
             (d <- (r <- _get E (S fuel) endpoint ;; raise_for_status r ;; json r) ;;
              lift (subscript d key)) w =
               (match outcome_of_reply
                        (respond E (log w)
                           (request_for (self w) GET endpoint NoBody)) with
                | Ok d => subscript d key
                | Raise e => Raise e
                end, after_request Helper GET endpoint NoBody w)).
  { intros endpoint key. rewrite bind_run. unfold _get, _get_with.
    rewrite (fetch_valid E GET endpoint NoBody fuel w V).
    destruct (outcome_of_reply _); reflexivity. }
  assert (St : forall m,
             mode_setter E (S fuel) m w =
               (match outcome_of_reply
                        (respond E (log w)
                           (request_for (self w) POST "led/mode"
                              (Json (PyDict [("mode", PyStr m)])))) with
                | Ok _ => Ok tt
                | Raise e => Raise e
                end,
                after_request Helper POST "led/mode"
                  (Json (PyDict [("mode", PyStr m)])) w)).
  { intros m. unfold mode_setter, set_mode, _post, _post_with.
    rewrite bind_run.
    rewrite (fetch_valid E POST "led/mode" _ fuel w V).
    destruct (outcome_of_reply _); reflexivity. }
  repeat match goal with |- _ /\ _ => split end;
    first [apply Rd | apply St].
Qed.

Lemma properties_and_shortcuts_witness :
  let E := lab_but "led/mode" (answer 200 (PyDict [("mode", PyStr "demo")]))
             (PyInt 10) 3600 [] in
  let E' := lab_but "led/mode"
              (Answers {| status_code := 200; json_body := None |})
              (PyInt 10) 3600 [] in
  let w := renewed E (PyStr "QUJD") 3600 (boot 1000) in
  fst (mode_getter E 1 w) = Ok (PyStr "demo")
  /\ fst (name_getter E 1 w) = Raise (KeyError "name")
  /\ fst (off E' 1 w) = Raise JSONDecodeError.
Proof.
  intros E E' w.
  destruct (properties_and_shortcuts E 0 w eq_refl) as (N & Md & _).
  destruct (properties_and_shortcuts E' 0 w eq_refl) as (_ & _ & _ & _ & _ & O & _).
  split; [rewrite Md; reflexivity|]. split; [rewrite N; reflexivity|].
  rewrite O. reflexivity.
Defined.

(** ** A frame sent after the token has expired *)

(** X18.  [send_frame] on an expired session renews first and then sends
    under the new token: when the login grants the token [tok] for a
    positive lifetime and the verify request is accepted, the call logs
    the login, the verify request and one datagram, and the bytes after
    the leading 1 are those of the new token. *)
Theorem send_frame_renews_then_sends (E : env) (fuel : nat) (w : world)
    (n : Z) (frame : TWINKLY_FRAME) (tok : string) (ttl : Z)
    (decoded : list byte) :
  expired (self w) (now w) = true ->
  grants (respond E (log w) (login_request E w)) (PyStr tok) ttl ->
  0 < ttl ->
  reply_error (verify_reply E (PyStr tok) ttl w) = None ->
  _length (self w) = PyInt n ->
  Z.of_nat (List.length frame) = n ->
  n <= 255 ->
  Forall channels_8bit frame ->
  b64decode E tok = Some decoded ->
  exists data,
    map Z_of_byte data = 1 :: map Z_of_byte decoded ++ n :: frame_payload frame
    /\ log (snd (send_frame E (S (S fuel)) frame w)) =
         log w ++ [login_event E w;
                   verify_event (installed (PyStr tok) (now w + ttl) (self w))
                                (now w);
                   Udp data (host (self w)) (rt_port (self w))].
Proof.
  intros X G Pos V Hn Hlen Hfit Hch Hdec.
  rewrite (send_frame_cached E (S (S fuel)) frame w n Hn).
  replace (negb (Z.of_nat (List.length frame) =? n)) with false
    by (symmetry; apply negb_false_iff; apply Z.eqb_eq; exact Hlen).
  unfold token. rewrite bind_run.
  rewrite (renewal_run E fuel w (PyStr tok) ttl X G Pos), V.
  cbn [get_self ret bind renewed self _token installed b64decode_value].
  rewrite Hdec.
  destruct (byte_of_Z_some n) as (cnt & Bc & Vc); [lia|].
  cbn [bytes_of_ints]. rewrite Bc.
  destruct (bytes_of_ints_ok (frame_payload frame)) as (colours & Bp & Vp);
    [apply frame_payload_range; exact Hch|].
  rewrite Bp.
  assert (Shape : ([x01] ++ decoded ++ [cnt]) ++ colours
                  = x01 :: decoded ++ cnt :: colours).
  { cbn [app]. rewrite <- app_assoc. reflexivity. }
  rewrite Shape. exists (x01 :: decoded ++ cnt :: colours). split.
  - cbn [map]. rewrite map_app. cbn [map]. rewrite Vc, Vp. reflexivity.
  - rewrite socket_sendto_log. unfold renewed. cbn [log].
    rewrite <- app_assoc. reflexivity.
Qed.

Lemma send_frame_renews_then_sends_witness :
  let E := lab (PyInt 1) 3600 200 [] in
  let w := with_length (PyInt 1) (boot 1000) in
  exists data,
    map Z_of_byte data = [1; 65; 66; 67; 1; 255; 0; 0]
    /\ log (snd (send_frame E 2 [(255, 0, 0)] w)) =
         [login_event E w;
          verify_event (installed (PyStr "QUJD") 4600 (self w)) 1000;
          Udp data "lights" 7777].
Proof.
  intros E w.
  apply (send_frame_renews_then_sends E 0 w 1 [(255, 0, 0)] "QUJD" 3600
           [x41; x42; x43]); try reflexivity; try lia.
  - exists 200, (PyDict [("authentication_token", PyStr "QUJD");
                         ("authentication_token_expires_in", PyInt 3600);
                         ("code", PyInt 1000)]), (PyInt 3600).
    repeat split.
  - repeat constructor; simpl; lia.
Defined.

(** [mode --mode off] and [name] on the example device. *)
Lemma main_dispatches_witness :
  let E := lab (PyInt 10) 3600 200 [] in
  main E true (command_line "lights" false true (Mode (Some "off"))) 2 (boot 1000) =
    (__init__ E "lights" true 2 ;;
     res <- set_mode E 2 (PyDict [("mode", PyStr "off")]) ;;
     emit (Stdout true res)) (boot 1000)
  /\ fst (main E true (command_line "lights" false true (Mode (Some "off"))) 2
            (boot 1000)) = Ok tt.
Proof.
  intros E.
  destruct (main_dispatches E true "lights" false true 2 (boot 1000))
    as (_ & _ & _ & _ & _ & _ & M & _).
  split; [|reflexivity].
  apply M. simpl. tauto.
Defined.

(** X19.  No device operation, nor [logout], nor the property [token],
    does anything but HTTP: whatever happens, all that such a call adds
    to the log is HTTP requests, no datagram and no output.  None of
    them writes host, port or the cached LED count. *)
Theorem operations_only_talk_http (E : env) (fuel : nat) :
  let quiet {A} (m : M A) :=
    (forall w, exists evs, log (snd (m w)) = log w ++ evs
                           /\ Forall (fun ev => is_http ev = true) evs)
    /\ keeps same_device m in
  quiet (get_name E fuel)
  /\ (forall d, quiet (set_name E fuel d))
  /\ quiet (reset E fuel)
  /\ quiet (get_network_status E fuel)
  /\ quiet (get_firmware_version E fuel)
  /\ quiet (get_details E fuel)
  /\ quiet (get_mode E fuel)
  /\ (forall d, quiet (set_mode E fuel d))
  /\ quiet (get_mqtt E fuel)
  /\ (forall d, quiet (set_mqtt E fuel d))
  /\ quiet (get_movie_config E fuel)
  /\ (forall d, quiet (set_movie_config E fuel d))
  /\ (forall data, quiet (upload_movie E fuel data))
  /\ quiet (logout E fuel)
  /\ quiet (token E fuel).
Proof.
  intros quiet. subst quiet. cbv beta.
  assert (W : forall A (m : M A), tidy session_event m ->
            forall w, exists evs, log (snd (m w)) = log w ++ evs
                                  /\ Forall (fun ev => is_http ev = true) evs).
  { intros A m T w. destruct (T w) as (_ & evs & L & F).
    exists evs. split; [exact L|]. eapply Forall_impl; [|exact F].
    intros ev [H _]. exact H. }
  pose proof (every_operation_sends_fresh E fuel)
    as (O1 & O2 & O3 & O4 & O5 & O6 & O7 & O8 & O9 & O10 & O11 & O12 & O13
        & O14 & _ & O16).
  repeat (intros; match goal with |- _ /\ _ => split end); intros;
    first [solve [apply W; auto] | apply keeps_fetch | apply keeps_logout
          | apply keeps_token].
Qed.

(** ** The session layer on a clock that moves: facts *)

Lemma later_by_refl P w : later_by P w w.
Proof.
  split; [lia|]. exists []. rewrite app_nil_r. auto.
Qed.

Lemma later_by_trans P w1 w2 w3 :
  later_by P w1 w2 -> later_by P w2 w3 -> later_by P w1 w3.
Proof.
  intros [T1 [e1 [L1 F1]]] [T2 [e2 [L2 F2]]]. split; [lia|].
  exists (e1 ++ e2). split.
  - rewrite L2, L1, app_assoc. reflexivity.
  - apply Forall_app; auto.
Qed.

Section WallFacts.

Variable E : env.
Variable lag : list event -> Z -> Z.
Hypothesis lag_nonneg : forall l t, 0 <= lag l t.

Lemma wall_time_run w :
  wall_time lag w = (Ok (now (paused lag w)), paused lag w).
Proof. reflexivity. Qed.

Lemma later_by_paused P w : later_by P w (paused lag w).
Proof.
  split; [simpl; pose proof (lag_nonneg (log w) (now w)); lia|].
  exists []. simpl. rewrite app_nil_r. auto.
Qed.

(** The request leaves after one pause, and the reply or the failure is
    there after another. *)
Lemma wall_request_run o m endpoint c w :
  wall_request E lag o m endpoint c w =
    (match respond E (log w) (request_for (self w) m endpoint c) with
     | Fails e => Raise e
     | Answers r => Ok r
     end,
     paused lag (after_request o m endpoint c (paused lag w))).
Proof.
  unfold wall_request. cbn [pause snd]. fold (paused lag w).
  rewrite session_request_eq. reflexivity.
Qed.

Lemma later_by_wall_request P o m endpoint c w :
  P (Http o (request_for (self w) m endpoint c) (now (paused lag w))
       (expires (self w))) ->
  later_by P w (snd (wall_request E lag o m endpoint c w)).
Proof.
  intros H. rewrite wall_request_run. cbn [snd].
  eapply later_by_trans; [apply later_by_paused|].
  eapply later_by_trans; [|apply later_by_paused].
  split; [simpl; lia|]. eexists. split; [reflexivity|]. auto.
Qed.

Lemma wall_login_post w :
  later_by wall_event w (snd (wall_login E lag w))
  /\ same_device (self w) (self (snd (wall_login E lag w))).
Proof.
  unfold wall_login. cbv zeta. rewrite bind_run.
  pose proof (later_by_wall_request wall_event Direct POST "login"
                (Json (PyDict [("challenge", PyStr (challenge E (log w)))])) w) as G.
  assert (D : self (snd (wall_request E lag Direct POST "login"
                (Json (PyDict [("challenge", PyStr (challenge E (log w)))])) w))
              = self w) by (rewrite wall_request_run; reflexivity).
  destruct (wall_request E lag Direct POST "login" _ w) as [[r|e] w1];
    cbn [snd] in *.
  2:{ split; [apply G; split; reflexivity|]. rewrite D. apply same_device_refl. }
  specialize (G (conj eq_refl eq_refl)).
  assert (Keep : forall w2, later_by wall_event w1 w2 ->
                            same_device (self w1) (self w2) ->
                            later_by wall_event w w2 /\ same_device (self w) (self w2)).
  { intros w2 G2 D2. split; [eapply later_by_trans; eauto|].
    rewrite <- D. exact D2. }
  unfold raise_for_status, json, raise, ret, lift, set_token, set_header,
    set_expires, get_self, set_self, wall_time, pause, time_time, bind.
  pose proof (lag_nonneg (log w1) (now w1)) as Hl.
  repeat match goal with
         | |- context [if ?b then _ else _] => destruct b
         | |- context [match json_body ?r with _ => _ end] => destruct (json_body r)
         | |- context [match subscript ?v ?k with _ => _ end] => destruct (subscript v k)
         | |- context [match as_int ?v with _ => _ end] => destruct (as_int v)
         end; cbn [snd];
    (apply Keep;
     [ split; [cbn; lia|]; exists []; cbn; rewrite app_nil_r;
       split; [reflexivity|constructor]
     | repeat split ]).
Qed.

End WallFacts.

Section WallSession.

Variable E : env.
Variable lag : list event -> Z -> Z.
Hypothesis lag_nonneg : forall l t, 0 <= lag l t.

Lemma wall_helper_run (ensure : M Z) m endpoint c w :
  (tested <- ensure ;;
   r <- wall_request E lag Helper m endpoint c ;;
   ret (tested, r)) w =
    match ensure w with
    | (Ok tested, w1) =>
        (match respond E (log w1) (request_for (self w1) m endpoint c) with
         | Fails e => Raise e
         | Answers r => Ok (tested, r)
         end,
         paused lag (after_request Helper m endpoint c (paused lag w1)))
    | (Raise e, w1) => (Raise e, w1)
    end.
Proof.
  rewrite bind_run. destruct (ensure w) as [[t|e] w1]; [|reflexivity].
  rewrite bind_run, wall_request_run.
  destruct (respond E (log w1) _); reflexivity.
Qed.

Lemma wall_helper_snd (ensure : M Z) m endpoint c w :
  (p <- (tested <- ensure ;;
         r <- wall_request E lag Helper m endpoint c ;;
         ret (tested, r)) ;;
   ret (snd p)) w =
    match ensure w with
    | (Ok tested, w1) =>
        (match respond E (log w1) (request_for (self w1) m endpoint c) with
         | Fails e => Raise e
         | Answers r => Ok r
         end,
         paused lag (after_request Helper m endpoint c (paused lag w1)))
    | (Raise e, w1) => (Raise e, w1)
    end.
Proof.
  unfold bind at 1. rewrite wall_helper_run.
  destruct (ensure w) as [[t|e] w1]; [|reflexivity].
  destruct (respond E (log w1) _); reflexivity.
Qed.

(** One renewal, given what the nested [ensure_token] guarantees. *)
Lemma wall_renewal_post (ensure : M Z) w :
  (forall w0,
      later_by wall_event w0 (snd (ensure w0))
      /\ same_device (self w0) (self (snd (ensure w0)))
      /\ forall t, fst (ensure w0) = Ok t -> passed t (snd (ensure w0))) ->
  let res := (wall_login E lag ;; wall_verify_login_with E lag ensure) w in
  later_by wall_event w (snd res)
  /\ same_device (self w) (self (snd res))
  /\ forall t, fst res = Ok t -> passed t (snd res).
Proof.
  intros IH res. subst res. rewrite bind_run.
  destruct (wall_login_post E lag lag_nonneg w) as [G1 D1].
  destruct (wall_login E lag w) as [[[]|e] w1]; cbn [snd] in G1, D1.
  2:{ cbn. split; [exact G1|]. split; [exact D1|]. discriminate. }
  unfold wall_verify_login_with, wall_post_with.
  rewrite bind_run, wall_helper_run.
  destruct (IH w1) as (G2 & D2 & V2).
  destruct (ensure w1) as [[t|e] w2]; cbn [fst snd] in G2, D2, V2.
  2:{ cbn. split; [eapply later_by_trans; eauto|].
      split; [eapply same_device_trans; eauto|]. discriminate. }
  destruct (V2 t eq_refl) as (e & He & Hlt & Hle).
  set (w3 := paused lag (after_request Helper POST "verify" (Json (PyDict []))
                           (paused lag w2))).
  assert (G3 : later_by wall_event w2 w3).
  { eapply later_by_trans; [apply later_by_paused; exact lag_nonneg|].
    eapply later_by_trans; [|apply later_by_paused; exact lag_nonneg].
    split; [simpl; lia|]. eexists. split; [reflexivity|].
    constructor; [|constructor]. split; [reflexivity|]. simpl.
    rewrite He. reflexivity. }
  assert (G : later_by wall_event w w3)
    by (eapply later_by_trans; [|exact G3]; eapply later_by_trans; eauto).
  assert (D : same_device (self w) (self w3))
    by (eapply same_device_trans; eauto).
  assert (P3 : passed t w3).
  { exists e. split; [exact He|]. split; [exact Hlt|].
    destruct G3 as [T3 _]. lia. }
  destruct (respond E (log w2) _) as [x|r]; cbn [fst snd];
    [split; [exact G|split; [exact D|discriminate]]|].
  rewrite bind_run. unfold raise_for_status, raise, ret. cbn [snd].
  destruct ((400 <=? status_code r) && (status_code r <? 600)); cbn [fst snd];
    (split; [exact G|split; [exact D|]]); [discriminate|].
  intros t' [= <-]. exact P3.
Qed.

Lemma wall_ensure_token_post fuel : forall w,
  later_by wall_event w (snd (wall_ensure_token E lag fuel w))
  /\ same_device (self w) (self (snd (wall_ensure_token E lag fuel w)))
  /\ forall t, fst (wall_ensure_token E lag fuel w) = Ok t ->
               passed t (snd (wall_ensure_token E lag fuel w)).
Proof.
  induction fuel as [|fuel IH]; intros w; cbn [wall_ensure_token].
  - cbn. split; [apply later_by_refl|]. split; [apply same_device_refl|].
    discriminate.
  - destruct (expires (self w)) as [e|] eqn:X.
    + rewrite bind_run, wall_time_run.
      destruct (e <=? now (paused lag w)) eqn:T.
      * destruct (wall_renewal_post (wall_ensure_token E lag fuel)
                    (paused lag w) IH) as (G & D & V).
        split; [eapply later_by_trans;
                [apply later_by_paused; exact lag_nonneg|exact G]|].
        split; [exact D|exact V].
      * cbn. split; [apply later_by_paused; exact lag_nonneg|].
        split; [apply same_device_refl|]. intros t [= <-].
        exists e. split; [exact X|]. apply Z.leb_gt in T. simpl in T.
        split; [exact T|simpl; lia].
    + apply (wall_renewal_post (wall_ensure_token E lag fuel) w IH).
Qed.

End WallSession.

(** C1, as the code has it.  A helper sends its request only after
    [ensure_token] has returned: if [ensure_token] raises, [_post] and
    [_get] raise the same exception and send nothing of their own.  When
    it returns, an expiry is stored and lies strictly after the reading
    [tested] of the clock at which [ensure_token] made its last test;
    the helper then sends exactly one request, without looking at the
    clock again, so the request leaves at some clock no earlier than
    [tested], under that expiry.  Every request a helper sends, the
    [verify] request of a renewal included, leaves with an expiry
    stored. *)
Theorem helper_requests_follow_expiry_test (E : env)
    (lag : list event -> Z -> Z) (fuel : nat) (endpoint : string)
    (c : content) (w : world) :
  (forall l t, 0 <= lag l t) ->
  let w1 := snd (wall_ensure_token E lag fuel w) in
  match fst (wall_ensure_token E lag fuel w) with
  | Raise e =>
      wall_post E lag fuel endpoint c w = (Raise e, w1) /\
      wall_get E lag fuel endpoint w = (Raise e, w1)
  | Ok tested =>
      exists e,
        expires (self w1) = Some e /\ tested < e
        /\ tested <= now (paused lag w1) /\
        log (snd (wall_post E lag fuel endpoint c w)) =
          log w1 ++ [Http Helper (request_for (self w1) POST endpoint c)
                       (now (paused lag w1)) (Some e)] /\
        log (snd (wall_get E lag fuel endpoint w)) =
          log w1 ++ [Http Helper (request_for (self w1) GET endpoint NoBody)
                       (now (paused lag w1)) (Some e)]
  end
  /\ (exists evs, log (snd (wall_post E lag fuel endpoint c w)) = log w ++ evs
                  /\ Forall wall_event evs)
  /\ (exists evs, log (snd (wall_get E lag fuel endpoint w)) = log w ++ evs
                  /\ Forall wall_event evs).
Proof.
  intros Hlag w1. subst w1.
  unfold wall_post, wall_get, wall_post_with, wall_get_with.
  rewrite !wall_helper_snd.
  destruct (wall_ensure_token_post E lag Hlag fuel w) as ((_ & evs & L & F) & _ & V).
  destruct (wall_ensure_token E lag fuel w) as [[tested|x] w1];
    cbn [fst snd] in *.
  - destruct (V tested eq_refl) as (e & He & Hlt & Hle).
    pose proof (Hlag (log w1) (now w1)) as H0.
    assert (Sent : forall m c',
               log (paused lag (after_request Helper m endpoint c' (paused lag w1))) =
                 log w1 ++ [Http Helper (request_for (self w1) m endpoint c')
                              (now (paused lag w1)) (Some e)]).
    { intros m c'. simpl. rewrite He. reflexivity. }
    assert (All : forall m c',
               exists evs',
                 log (paused lag (after_request Helper m endpoint c' (paused lag w1))) =
                   log w ++ evs' /\ Forall wall_event evs').
    { intros m c'. eexists. rewrite Sent, L, <- app_assoc.
      split; [reflexivity|]. apply Forall_app. split; [exact F|].
      constructor; [|constructor]. split; reflexivity. }
    split; [|split].
    + exists e. split; [exact He|]. split; [exact Hlt|].
      split; [simpl; lia|].
      split.
      * destruct (respond E (log w1) (request_for (self w1) POST endpoint c));
          cbn [snd]; apply Sent.
      * destruct (respond E (log w1) (request_for (self w1) GET endpoint NoBody));
          cbn [snd]; apply Sent.
    + destruct (respond E (log w1) (request_for (self w1) POST endpoint c));
        cbn [snd]; apply All.
    + destruct (respond E (log w1) (request_for (self w1) GET endpoint NoBody));
        cbn [snd]; apply All.
  - split; [split; reflexivity|]. split; exists evs; split; assumption.
Qed.

(** On the example device with one second passing at every pause: a
    read of the mode two seconds before the token expires.  The test
    reads 4599 and lets the call through; the request leaves at 4600. *)
Lemma helper_requests_follow_expiry_test_witness :
  let E := lab (PyInt 10) 3600 200 [] in
  let w := at_time 4598 (renewed E (PyStr "QUJD") 3600 (boot 1000)) in
  (forall l t, 0 <= one_second l t)
  /\ fst (wall_ensure_token E one_second 3 w) = Ok 4599
  /\ exists e,
       expires (self (snd (wall_ensure_token E one_second 3 w))) = Some e
       /\ 4599 < e
       /\ log (snd (wall_get E one_second 3 "led/mode" w)) =
            log w ++ [Http Helper (authed GET "led/mode" NoBody) 4600 (Some e)].
Proof.
  intros E w.
  assert (Hlag : forall l t, 0 <= one_second l t)
    by (intros; unfold one_second; lia).
  split; [exact Hlag|]. split; [reflexivity|].
  destruct (helper_requests_follow_expiry_test E one_second 3 "led/mode"
              NoBody w Hlag) as (H & _).
  cbv zeta in H.
  change (fst (wall_ensure_token E one_second 3 w)) with (Ok (A:=Z) 4599) in H.
  destruct H as (e & He & Hlt & _ & _ & LG).
  exists e. split; [exact He|]. split; [exact Hlt|exact LG].
Defined.

(** C1 as stated fails once the clock moves during a call: on the
    example device, with the token expiring at 4600 and one second
    passing at every pause, a read of the mode started at 4598 passes
    the test at 4599 and puts its request on the wire at 4600, when the
    stored expiry is no longer ahead; no renewal is made. *)
Lemma helper_request_sent_at_expiry :
  let E := lab (PyInt 10) 3600 200 [] in
  let w := at_time 4598 (renewed E (PyStr "QUJD") 3600 (boot 1000)) in
  let sent := Http Helper (authed GET "led/mode" NoBody) 4600 (Some 4600) in
  fst (wall_get E one_second 3 "led/mode" w) =
    Ok {| status_code := 200; json_body := Some ok_body |}
  /\ log (snd (wall_get E one_second 3 "led/mode" w)) = log w ++ [sent]
  /\ expires (self (snd (wall_get E one_second 3 "led/mode" w))) = Some 4600
  /\ sent_fresh sent = false.
Proof.
  intros E w sent. repeat split.
Qed.

(** ** The moving clock at rest

    With no time passing at any pause the methods on the moving clock are
    the methods on the virtual clock. *)

Section AtRest.

Variable E : env.

Lemma paused_no_time w : paused no_time w = w.
Proof.
  destruct w as [t n l]. unfold paused, no_time. cbn. rewrite Z.add_0_r.
  reflexivity.
Qed.

Lemma wall_time_at_rest w : wall_time no_time w = time_time w.
Proof. rewrite wall_time_run, paused_no_time. reflexivity. Qed.

Lemma wall_request_at_rest o m endpoint c w :
  wall_request E no_time o m endpoint c w = session_request E o m endpoint c w.
Proof.
  rewrite wall_request_run, session_request_eq, !paused_no_time. reflexivity.
Qed.

Lemma wall_login_at_rest w : wall_login E no_time w = login E w.
Proof.
  unfold wall_login, login. cbv zeta.
  rewrite !bind_run, wall_request_at_rest.
  destruct (session_request E Direct POST "login" _ w) as [[r|e] w1];
    [|reflexivity].
  unfold raise_for_status, json, raise, ret, lift, set_token, set_header,
    set_expires, get_self, set_self, bind.
  repeat match goal with
         | |- context [if ?b then _ else _] => destruct b
         | |- context [match json_body ?r with _ => _ end] => destruct (json_body r)
         | |- context [match subscript ?v ?k with _ => _ end] => destruct (subscript v k)
         | |- context [match as_int ?v with _ => _ end] => destruct (as_int v)
         end; try reflexivity;
    rewrite wall_time_at_rest; reflexivity.
Qed.

Lemma wall_ensure_token_at_rest fuel : forall w,
  wall_ensure_token E no_time fuel w =
    (at_reading w (fst (ensure_token E fuel w)), snd (ensure_token E fuel w)).
Proof.
  induction fuel as [|fuel IH]; intros w; [reflexivity|].
  assert (R : (wall_login E no_time ;;
               wall_verify_login_with E no_time (wall_ensure_token E no_time fuel)) w =
              (at_reading w
                 (fst ((login E ;; verify_login_with E (ensure_token E fuel)) w)),
               snd ((login E ;; verify_login_with E (ensure_token E fuel)) w))).
  { rewrite (bind_run _ _ (wall_login E no_time)), wall_login_at_rest.
    rewrite (bind_run _ _ (login E)).
    destruct (login_post E w) as ((T1 & _) & _).
    destruct (login E w) as [[[]|e] w1]; [|reflexivity]. cbn [snd] in T1.
    unfold wall_verify_login_with, wall_post_with, verify_login_with, _post_with.
    rewrite (bind_run _ _ (bind (wall_ensure_token E no_time fuel) _)).
    rewrite wall_helper_run, IH.
    rewrite (bind_run _ _ (bind (ensure_token E fuel) _)).
    rewrite (bind_run _ _ (ensure_token E fuel)).
    destruct (ensure_token_post E fuel w1) as ((T2 & _) & _).
    destruct (ensure_token E fuel w1) as [[[]|e] w2]; [|reflexivity].
    cbn [fst snd at_reading] in *.
    rewrite !paused_no_time, session_request_eq.
    destruct (respond E (log w2) _) as [x|r]; [reflexivity|].
    rewrite !bind_run. unfold raise_for_status, raise, ret. cbn [fst snd].
    destruct ((400 <=? status_code r) && (status_code r <? 600));
      cbn [fst snd at_reading]; [reflexivity|].
    rewrite ?T2, ?T1. reflexivity. }
  cbn [wall_ensure_token ensure_token]. unfold expired.
  destruct (expires (self w)) as [e|]; [|exact R].
  rewrite bind_run, wall_time_at_rest. cbn [time_time].
  destruct (e <=? now w); [exact R|reflexivity].
Qed.

(** The helpers at rest are the helpers of the virtual clock. *)
Lemma wall_helpers_at_rest fuel endpoint c w :
  wall_post E no_time fuel endpoint c w = _post E fuel endpoint c w
  /\ wall_get E no_time fuel endpoint w = _get E fuel endpoint w.
Proof.
  unfold wall_post, wall_get, wall_post_with, wall_get_with, _post, _get,
    _post_with, _get_with.
  rewrite !wall_helper_snd, !wall_ensure_token_at_rest, !bind_run.
  destruct (ensure_token E fuel w) as [[[]|e] w1]; cbn [fst snd at_reading];
    [|split; reflexivity].
  rewrite !paused_no_time, !session_request_eq. split; reflexivity.
Qed.

End AtRest.

(** X5.  The property [token], on the moving clock: it returns only
    after [ensure_token] has returned, and hands out the token stored at
    that moment; an expiry is then stored and lies after the reading of
    the clock at the last expiry test.  When [ensure_token] raises,
    [token] raises the same exception. *)
Theorem token_returns_the_stored_token (E : env)
    (lag : list event -> Z -> Z) (fuel : nat) (w : world) :
  (forall l t, 0 <= lag l t) ->
  let w1 := snd (wall_ensure_token E lag fuel w) in
  match fst (wall_ensure_token E lag fuel w) with
  | Ok tested =>
      wall_token E lag fuel w = (Ok (_token (self w1)), w1)
      /\ exists e, expires (self w1) = Some e /\ tested < e /\ tested <= now w1
  | Raise e => wall_token E lag fuel w = (Raise e, w1)
  end.
Proof.
  intros Hlag w1. subst w1. unfold wall_token. rewrite bind_run.
  destruct (wall_ensure_token_post E lag Hlag fuel w) as (_ & _ & V).
  destruct (wall_ensure_token E lag fuel w) as [[tested|x] w1];
    cbn [fst snd] in *; [|reflexivity].
  split; [reflexivity|]. exact (V tested eq_refl).
Qed.

(** On the example device with one second passing at every pause, at
    the second the token expires: the session is renewed, the last test
    reads 4604, and the token handed out is the new one, good until
    8203. *)
Lemma token_returns_the_stored_token_witness :
  let E := lab (PyInt 10) 3600 200 [] in
  let w := at_time 4599 (renewed E (PyStr "QUJD") 3600 (boot 1000)) in
  (forall l t, 0 <= one_second l t)
  /\ fst (wall_token E one_second 3 w) = Ok (PyStr "QUJD")
  /\ exists e,
       expires (self (snd (wall_token E one_second 3 w))) = Some e
       /\ 4604 < e.
Proof.
  intros E w.
  assert (Hlag : forall l t, 0 <= one_second l t)
    by (intros; unfold one_second; lia).
  split; [exact Hlag|]. split; [reflexivity|].
  pose proof (token_returns_the_stored_token E one_second 3 w Hlag) as H.
  cbv zeta in H.
  change (fst (wall_ensure_token E one_second 3 w)) with (Ok (A:=Z) 4604) in H.
  destruct H as (_ & e & He & Hlt & _).
  exists e. split; [exact He|exact Hlt].
Defined.
